(** * Company formation server: validation, document layout and handlers

    A shallow embedding of [app.py] (the Flask/pydantic/reportlab service
    that renders incorporation documents and bylaws) together with the
    properties its specification states about it.

    Conventions of the embedding:
    - a Python [str] is a [string] of 8-bit characters (code points below
      256); a Python [int] is a [Z];
    - a [dict] with string keys is a [gmap string _];
    - code that may raise returns in the [raises] monad;
    - a reportlab canvas is the list of text draws issued on it, each with
      the font that was selected when it was drawn;
    - the libraries behave as pydantic 1 and Flask 2 (Werkzeug) do, as far
      as [app.py] relies on them;
    - the generators and the handlers are embedded as the functions that
      their bodies define; whether the module that holds them can be
      imported is a separate statement ([import_app]). *)

From Stdlib Require Import ZArith NArith Ascii String List Lia Bool.
From stdpp Require Import base gmap strings pretty list sorting.

Local Open Scope Z_scope.

(* ===================================================================== *)
(** * Python strings *)
(* ===================================================================== *)

Module PyStr.

Definition code (c : ascii) : N := N_of_ascii c.

Definition between (lo hi : ascii) (c : ascii) : bool :=
  (code lo <=? code c)%N && (code c <=? code hi)%N.

(** [str.isspace] on one character, which is also what [\s] matches in a
    [str] pattern: TAB..CR, the separators FS..US, space, NEL and NBSP. *)
Definition is_space (c : ascii) : bool :=
  let n := code c in
  ((9 <=? n) && (n <=? 13) || (28 <=? n) && (n <=? 32)
   || (n =? 133) || (n =? 160))%N.

Definition is_lower (c : ascii) : bool := between "a" "z" c.

Definition is_digit (c : ascii) : bool := between "0" "9" c.

(** [str.upper] on one character.  It is [str.upper] for the code points
    below 128.  The code points from 128 on are left as they are, which
    is Python's result for those that are not cased; the cased ones
    among them (the Latin-1 letters) cannot occur in a string that
    [validate_company_name] or [validate_state] returns. *)
Definition upper_char (c : ascii) : ascii :=
  if is_lower c then ascii_of_N (code c - 32) else c.

Fixpoint upper (s : string) : string :=
  match s with
  | EmptyString => EmptyString
  | String c s' => String (upper_char c) (upper s')
  end.

Fixpoint startswith (s p : string) {struct p} : bool :=
  match p, s with
  | EmptyString, _ => true
  | String _ _, EmptyString => false
  | String b p', String a s' => Ascii.eqb a b && startswith s' p'
  end.

(** [needle in text] *)
Fixpoint contains (text needle : string) : bool :=
  startswith text needle ||
  match text with
  | EmptyString => false
  | String _ t' => contains t' needle
  end.

(** [sep.join(parts)] *)
Fixpoint join (sep : string) (parts : list string) : string :=
  match parts with
  | [] => EmptyString
  | [p] => p
  | p :: rest => p +:+ sep +:+ join sep rest
  end.

(** [s.replace(a, b)] for single characters [a] and [b]. *)
Fixpoint replace_char (a b : ascii) (s : string) : string :=
  match s with
  | EmptyString => EmptyString
  | String c s' => String (if Ascii.eqb c a then b else c) (replace_char a b s')
  end.

Definition newline : ascii := ascii_of_N 10.
Definition carriage_return : ascii := ascii_of_N 13.

(** [s.strip()] *)
Fixpoint lstrip (s : string) : string :=
  match s with
  | EmptyString => EmptyString
  | String c s' => if is_space c then lstrip s' else s
  end.

Definition strip (s : string) : string :=
  String.rev (lstrip (String.rev (lstrip s))).

(** The decimal digits of an [int] literal as [int(s)] reads them: one
    underscore may stand between two digits. *)
Fixpoint digits (acc : Z) (after_digit : bool) (s : string) : option Z :=
  match s with
  | EmptyString => if after_digit then Some acc else None
  | String c s' =>
      if is_digit c then
        digits (10 * acc + Z.of_N (code c - 48)) true s'
      else if Ascii.eqb c "_" && after_digit then digits acc false s'
      else None
  end.

(** [int(s)] for a [str]: surrounding whitespace is dropped, a sign may
    come first; [None] stands for [ValueError].  (The limit that recent
    versions of Python put on the number of digits is left out.) *)
Definition to_int (s : string) : option Z :=
  match strip s with
  | String "-" s' => Z.opp <$> digits 0 false s'
  | String "+" s' => digits 0 false s'
  | s' => digits 0 false s'
  end.

End PyStr.

(* ===================================================================== *)
(** * Regular expressions, as far as [re.match] is used by the validators *)
(* ===================================================================== *)

Module Re.

(** One item of a bracket expression. *)
Inductive cls_item :=
| Single (c : ascii)
| Range (lo hi : ascii)
| Whitespace.

Definition item_has (i : cls_item) (c : ascii) : bool :=
  match i with
  | Single a => Ascii.eqb c a
  | Range lo hi => PyStr.between lo hi c
  | Whitespace => PyStr.is_space c
  end.

Definition cls_has (items : list cls_item) (c : ascii) : bool :=
  existsb (fun i => item_has i c) items.

Inductive regex :=
| Void
| Eps
| Cls (items : list cls_item)
| Seq (r1 r2 : regex)
| Alt (r1 r2 : regex)
| Star (r : regex).

Definition Chr (c : ascii) : regex := Cls [Single c].
Definition Plus (r : regex) : regex := Seq r (Star r).

(** The words of a pattern. *)
Inductive lang : regex -> string -> Prop :=
| lang_eps : lang Eps EmptyString
| lang_cls items c : cls_has items c = true -> lang (Cls items) (String c EmptyString)
| lang_seq r1 r2 s1 s2 :
    lang r1 s1 -> lang r2 s2 -> lang (Seq r1 r2) (s1 +:+ s2)
| lang_alt_l r1 r2 s : lang r1 s -> lang (Alt r1 r2) s
| lang_alt_r r1 r2 s : lang r2 s -> lang (Alt r1 r2) s
| lang_star_nil r : lang (Star r) EmptyString
| lang_star_app r s1 s2 :
    lang r s1 -> lang (Star r) s2 -> lang (Star r) (s1 +:+ s2).

Fixpoint nullable (r : regex) : bool :=
  match r with
  | Void => false
  | Eps => true
  | Cls _ => false
  | Seq r1 r2 => nullable r1 && nullable r2
  | Alt r1 r2 => nullable r1 || nullable r2
  | Star _ => true
  end.

Fixpoint der (c : ascii) (r : regex) : regex :=
  match r with
  | Void => Void
  | Eps => Void
  | Cls items => if cls_has items c then Eps else Void
  | Seq r1 r2 =>
      if nullable r1 then Alt (Seq (der c r1) r2) (der c r2)
      else Seq (der c r1) r2
  | Alt r1 r2 => Alt (der c r1) (der c r2)
  | Star r1 => Seq (der c r1) (Star r1)
  end.

(** The whole of [s] is a word of [r]. *)
Fixpoint fullmatch (r : regex) (s : string) : bool :=
  match s with
  | EmptyString => nullable r
  | String c s' => fullmatch (der c r) s'
  end.

(** [s] without its last character when that character is a newline. *)
Fixpoint chomp (s : string) : option string :=
  match s with
  | EmptyString => None
  | String c EmptyString =>
      if Ascii.eqb c PyStr.newline then Some EmptyString else None
  | String c s' => option_map (String c) (chomp s')
  end.

(** [re.match('^' r '$', s) is not None].  Without [re.MULTILINE], [^]
    holds at the start of the string only, and [$] holds at the end of
    the string and also just before a newline that ends the string. *)
Definition match_anchored (r : regex) (s : string) : bool :=
  fullmatch r s ||
  match chomp s with
  | Some s' => fullmatch r s'
  | None => false
  end.

End Re.

(* ===================================================================== *)
(** * Exceptions and the interpreter state *)
(* ===================================================================== *)

(** One entry of a pydantic error report: the field and the reason. *)
Record field_error := { loc : string; msg : string }.

Inductive exn :=
| ValueError (m : string)
| TypeError (m : string)
| NameError (name : string)
| ValidationError (model : string) (errors : list field_error)
| ConfigError (fields : list string)
| UnsupportedMediaType
| BadRequest.

Inductive exn_class :=
| Exception_cls
| ValueError_cls
| TypeError_cls
| NameError_cls
| ValidationError_cls
| RuntimeError_cls
| HTTPException_cls.

Definition class_of (e : exn) : exn_class :=
  match e with
  | ValueError _ => ValueError_cls
  | TypeError _ => TypeError_cls
  | NameError _ => NameError_cls
  | ValidationError _ _ => ValidationError_cls
  | ConfigError _ => RuntimeError_cls
  | UnsupportedMediaType | BadRequest => HTTPException_cls
  end.

(** [issubclass sub sup]: pydantic's ValidationError derives from
    ValueError, its ConfigError from RuntimeError, and every class here
    derives from Exception. *)
Definition issubclass (sub sup : exn_class) : bool :=
  match sup, sub with
  | Exception_cls, _ => true
  | ValueError_cls, (ValueError_cls | ValidationError_cls) => true
  | TypeError_cls, TypeError_cls => true
  | NameError_cls, NameError_cls => true
  | ValidationError_cls, ValidationError_cls => true
  | RuntimeError_cls, RuntimeError_cls => true
  | HTTPException_cls, HTTPException_cls => true
  | _, _ => false
  end.

Definition isinstance (e : exn) (cls : exn_class) : bool :=
  issubclass (class_of e) cls.

Inductive raises (A : Type) :=
| Return (a : A)
| Raise (e : exn).
Arguments Return {A} a.
Arguments Raise {A} e.

Record datetime := {
  year : Z; month : Z; day : Z;
  hour : Z; minute : Z; second : Z; microsecond : Z
}.

Section Interpreter.

(** [G] is whatever state the process shares between calls. *)
Context {G : Type}.

Record world := { clock : nat -> datetime; reads : nat; shared : G }.

Definition Py (A : Type) : Type := world -> raises A * world.

Definition ret {A} (a : A) : Py A := fun w => (Return a, w).

Definition raise {A} (e : exn) : Py A := fun w => (Raise e, w).

Definition bind {A B} (m : Py A) (k : A -> Py B) : Py B :=
  fun w =>
    match m w with
    | (Return a, w') => k a w'
    | (Raise e, w') => (Raise e, w')
    end.

Definition lift {A} (r : raises A) : Py A := fun w => (r, w).

(** [datetime.now()]: the next reading of the system clock. *)
Definition datetime_now : Py datetime :=
  fun w =>
    (Return (clock w (reads w)),
     {| clock := clock w; reads := S (reads w); shared := shared w |}).

End Interpreter.

Arguments world G : clear implicits.
Arguments Py G A : clear implicits.

Declare Scope py_scope.
Delimit Scope py_scope with py.
Notation "'let*' x ':=' m 'in' k" := (bind m (fun x => k))
  (at level 10, x name, m at level 100, k at level 200) : py_scope.

(** What a name is bound to when an [except] clause evaluates it. *)
Inductive binding :=
| ExcClass (cls : exn_class)
| OtherObject.

(** The builtins that name exception classes. *)
Definition builtins : list (string * binding) :=
  [("Exception", ExcClass Exception_cls);
   ("ValueError", ExcClass ValueError_cls);
   ("TypeError", ExcClass TypeError_cls);
   ("NameError", ExcClass NameError_cls)].

(** The names bound at module level in [app.py]: its imports (lines 1-9),
    the application object, the two models, the generators and the
    handlers.  None of them is an exception class. *)
Definition app_module_names : list string :=
  ["Flask"; "request"; "jsonify"; "send_file";
   "BaseModel"; "Field"; "validator";
   "Literal"; "List"; "re"; "BytesIO"; "canvas"; "letter"; "datetime"; "os";
   "app"; "CompanyFormation"; "BylawsRequest";
   "generate_delaware_articles"; "generate_delaware_llc_certificate";
   "generate_california_articles"; "generate_california_llc_certificate";
   "form_company"; "form_company_schema"; "company_form";
   "generate_bylaws"; "generate_company_bylaws"].

(** Name lookup from a function of [app.py]: module globals, then builtins. *)
Definition resolve (name : string) : option binding :=
  if existsb (String.eqb name) app_module_names then Some OtherObject
  else snd <$> List.find (fun b => String.eqb name (fst b)) builtins.

Section TryExcept.
Context {G A : Type}.

(** The clauses of a [try] statement are tried in order; the class
    expression of a clause is evaluated when the clause is reached, and
    an exception raised by that evaluation leaves the statement. *)
Fixpoint handle (clauses : list (string * (exn -> Py G A))) (e : exn)
  : Py G A :=
  match clauses with
  | [] => raise e
  | (name, handler) :: rest =>
      match resolve name with
      | None => raise (NameError name)
      | Some OtherObject =>
          raise (TypeError "catching classes that do not inherit from BaseException is not allowed")
      | Some (ExcClass cls) =>
          if isinstance e cls then handler e else handle rest e
      end
  end.

Definition try_except (body : Py G A)
    (clauses : list (string * (exn -> Py G A))) : Py G A :=
  fun w =>
    match body w with
    | (Return a, w') => (Return a, w')
    | (Raise e, w') => handle clauses e w'
    end.

End TryExcept.

(* ===================================================================== *)
(** * The validators declared in [BylawsRequest] *)
(* ===================================================================== *)

Import Re.

(** [^(0[1-9]|1[0-2])-(0[1-9]|[12][0-9]|3[01])$], between the anchors. *)
Definition fiscal_year_end_pattern : regex :=
  Seq (Alt (Seq (Chr "0") (Cls [Range "1" "9"]))
           (Seq (Chr "1") (Cls [Range "0" "2"])))
 (Seq (Chr "-")
      (Alt (Seq (Chr "0") (Cls [Range "1" "9"]))
      (Alt (Seq (Cls [Single "1"; Single "2"]) (Cls [Range "0" "9"]))
           (Seq (Chr "3") (Cls [Single "0"; Single "1"]))))).

(** [^[a-zA-Z0-9\s,\.\'&]+$], between the anchors. *)
Definition company_name_class : list cls_item :=
  [Range "a" "z"; Range "A" "Z"; Range "0" "9"; Whitespace;
   Single ","; Single "."; Single "'"; Single "&"].

Definition company_name_pattern : regex := Plus (Cls company_name_class).

Definition validate_fiscal_year_end (v : string) : raises string :=
  if negb (match_anchored fiscal_year_end_pattern v)
  then Raise (ValueError "Fiscal year end must be in MM-DD format")
  else Return v.

Definition months : list string :=
  ["January"; "February"; "March"; "April"; "May"; "June";
   "July"; "August"; "September"; "October"; "November"; "December"].

Definition validate_annual_meeting_month (v : string) : raises string :=
  if negb (bool_decide (v ∈ months))
  then Raise (ValueError "Annual meeting month must be a valid month name")
  else Return v.

Definition validate_company_name (v : string) : raises string :=
  if negb (match_anchored company_name_pattern v)
  then Raise (ValueError "Company name can only contain alphanumeric characters, spaces, commas, periods, apostrophes, and ampersands")
  else Return v.

Definition states : gset string :=
  list_to_set
  ["AL"; "AK"; "AZ"; "AR"; "CA"; "CO"; "CT"; "DE"; "FL"; "GA";
   "HI"; "ID"; "IL"; "IN"; "IA"; "KS"; "KY"; "LA"; "ME"; "MD";
   "MA"; "MI"; "MN"; "MS"; "MO"; "MT"; "NE"; "NV"; "NH"; "NJ";
   "NM"; "NY"; "NC"; "ND"; "OH"; "OK"; "OR"; "PA"; "RI"; "SC";
   "SD"; "TN"; "TX"; "UT"; "VT"; "VA"; "WA"; "WV"; "WI"; "WY";
   "DC"; "PR"; "GU"; "VI"; "AS"; "MP"].

Definition validate_state (v : string) : raises string :=
  if negb (bool_decide (PyStr.upper v ∈ states))
  then Raise (ValueError "Invalid US state or territory")
  else Return (PyStr.upper v).

(* ===================================================================== *)
(** * pydantic models *)
(* ===================================================================== *)

(** A value decoded from JSON (or [None] from a missing form field).  A
    JSON number with a fraction or an exponent decodes to a [float], which
    has no counterpart here: the bodies considered hold integers only. *)
#[local] Set Warnings "-register-all".
Inductive pyval :=
| PNone
| PBool (b : bool)
| PInt (z : Z)
| PStr (s : string)
| PList (l : list pyval)
| PDict (d : gmap string pyval).

#[local] Set Warnings "register-all".

(** The outcome of validating one field: the typed value, or the entries
    it adds to the error report.  pydantic validates every field and
    reports all entries together. *)
Inductive checked (A : Type) :=
| Valid (a : A)
| Invalid (errs : list field_error).
Arguments Valid {A} a.
Arguments Invalid {A} errs.

Definition checked_ap {A B} (f : checked (A -> B)) (x : checked A)
  : checked B :=
  match f, x with
  | Valid g, Valid a => Valid (g a)
  | Valid _, Invalid e => Invalid e
  | Invalid e, Valid _ => Invalid e
  | Invalid e1, Invalid e2 => Invalid (e1 ++ e2)
  end.

Definition checked_bind {A B} (x : checked A) (k : A -> checked B)
  : checked B :=
  match x with
  | Valid a => k a
  | Invalid e => Invalid e
  end.

Definition bad {A} (field reason : string) : checked A :=
  Invalid [{| loc := field; msg := reason |}].

(** pydantic's [str_validator]: a [str] as it is, an [int] or a [bool]
    through [str()]; anything else is a type error. *)
Definition as_str (v : pyval) : option string :=
  match v with
  | PStr s => Some s
  | PInt z => Some (pretty z)
  | PBool true => Some "True"
  | PBool false => Some "False"
  | _ => None
  end.

(** pydantic's [int_validator]: an [int] as it is, anything else through
    [int()], which reads a [bool] as 0 or 1 and a [str] as a decimal
    literal and raises for the other values. *)
Definition as_int (v : pyval) : option Z :=
  match v with
  | PInt z => Some z
  | PBool true => Some 1
  | PBool false => Some 0
  | PStr s => PyStr.to_int s
  | _ => None
  end.

(** The declared type of a field: a required field must be present and
    not [None], and its value must convert to the type. *)
Definition str_field (field : string) (data : gmap string pyval)
  : checked string :=
  match data !! field with
  | None => bad field "field required"
  | Some PNone => bad field "none is not an allowed value"
  | Some v =>
      match as_str v with
      | Some s => Valid s
      | None => bad field "str type expected"
      end
  end.

Definition int_field (field : string) (data : gmap string pyval)
  : checked Z :=
  match data !! field with
  | None => bad field "field required"
  | Some PNone => bad field "none is not an allowed value"
  | Some v =>
      match as_int v with
      | Some z => Valid z
      | None => bad field "value is not a valid integer"
      end
  end.

(** The items of a [List[str]]: each goes through [str_validator]. *)
Fixpoint str_items (l : list pyval) : option (list string) :=
  match l with
  | [] => Some []
  | v :: rest =>
      match as_str v with
      | Some s => cons s <$> str_items rest
      | None => None
      end
  end.

Definition list_str_field (field : string) (data : gmap string pyval)
  : checked (list string) :=
  match data !! field with
  | None => bad field "field required"
  | Some PNone => bad field "none is not an allowed value"
  | Some (PList l) =>
      match str_items l with
      | Some titles => Valid titles
      | None => bad field "str type expected"
      end
  | Some _ => bad field "value is not a valid list"
  end.

(** [repr] of a string without quotes or backslashes. *)
Definition quoted (s : string) : string := "'" +:+ s +:+ "'".

(** [Literal[...]]: the value must equal one of the listed strings. *)
Definition literal_field (choices : list string) (field : string)
    (data : gmap string pyval) : checked string :=
  let unexpected :=
    "unexpected value; permitted: " +:+ PyStr.join ", " (quoted <$> choices) in
  match data !! field with
  | None => bad field "field required"
  | Some PNone => bad field "none is not an allowed value"
  | Some (PStr s) =>
      if bool_decide (s ∈ choices) then Valid s
      else bad field unexpected
  | Some _ => bad field unexpected
  end.

(** [Field(..., ge=lo)] and [Field(..., le=hi)]. *)
Definition at_least (lo : Z) (field : string) (v : Z) : checked Z :=
  if lo <=? v then Valid v
  else bad field
         ("ensure this value is greater than or equal to " +:+ pretty lo).

Definition at_most (hi : Z) (field : string) (v : Z) : checked Z :=
  if v <=? hi then Valid v
  else bad field
         ("ensure this value is less than or equal to " +:+ pretty hi).

(** The [@validator] methods of a class, by the field each is registered
    for.  After a field has passed its type check, the validators
    registered for its name in the class that declares the field run in
    order; a [ValueError] becomes an entry of the report. *)
Definition validator_table := list (string * (string -> raises string)).

Fixpoint run_validators (tbl : validator_table) (field : string) (v : string)
  : checked string :=
  match tbl with
  | [] => Valid v
  | (f, check) :: rest =>
      if String.eqb f field then
        match check v with
        | Return v' => run_validators rest field v'
        | Raise (ValueError m) => bad field m
        | Raise _ => bad field "validator failed"
        end
      else run_validators rest field v
  end.

Definition validated_str (tbl : validator_table) (field : string)
    (data : gmap string pyval) : checked string :=
  checked_bind (str_field field data) (run_validators tbl field).

Definition construct {A} (model : string) (c : checked A) : raises A :=
  match c with
  | Valid a => Return a
  | Invalid errs => Raise (ValidationError model errs)
  end.

(** What pydantic does when the [class] statement of a model runs: every
    [@validator] must be registered for a field that the class declares
    (none here passes [check_fields=False]); if one is not, the statement
    raises [ConfigError] and the class is not created. *)
Definition undeclared (fields : list string) (tbl : validator_table)
  : list string :=
  filter (fun f => f ∉ fields) (fst <$> tbl).

Definition create_model (fields : list string) (tbl : validator_table)
  : raises unit :=
  match undeclared fields tbl with
  | [] => Return tt
  | unused => Raise (ConfigError unused)
  end.

Module CompanyFormation.

Record t := {
  company_name : string;
  state_of_formation : string;
  company_type : string;
  incorporator_name : string
}.

(** The class body (lines 13-17) declares four fields and no validator. *)
Definition fields : list string :=
  ["company_name"; "state_of_formation"; "company_type";
   "incorporator_name"].

Definition validators : validator_table := [].

(** The [class] statement. *)
Definition class_statement : raises unit := create_model fields validators.

(** The constructor call with the entries of [data] as keyword arguments. *)
Definition init (data : gmap string pyval) : raises t :=
  construct "CompanyFormation"
    (checked_ap (checked_ap (checked_ap (checked_ap (Valid Build_t)
      (validated_str validators "company_name" data))
      (validated_str validators "state_of_formation" data))
      (checked_bind
         (literal_field ["corporation"; "LLC"] "company_type" data)
         (run_validators validators "company_type")))
      (validated_str validators "incorporator_name" data)).

End CompanyFormation.

Module BylawsRequest.

Record t := {
  company_name : string;
  principal_office : string;
  fiscal_year_end : string;
  board_size : Z;
  officer_titles : list string;
  annual_meeting_month : string;
  quorum_percentage : Z
}.

(** The seven fields of the class body (lines 20-26). *)
Definition fields : list string :=
  ["company_name"; "principal_office"; "fiscal_year_end"; "board_size";
   "officer_titles"; "annual_meeting_month"; "quorum_percentage"].

(** The four [@validator] methods of the class body (lines 28-60), in
    the order they are declared.  The last one is registered for
    [state_of_formation], which is not a field of this class. *)
Definition validators : validator_table :=
  [("fiscal_year_end", validate_fiscal_year_end);
   ("annual_meeting_month", validate_annual_meeting_month);
   ("company_name", validate_company_name);
   ("state_of_formation", validate_state)].

(** The [class] statement (lines 19-60). *)
Definition class_statement : raises unit := create_model fields validators.

(** What the constructor does with the entries of [data] as keyword
    arguments: the fields in the order they are declared, each with the
    validators registered for it.  (A validator registered for a name
    that is not a field is never reached by this; whether the class
    exists at all is [class_statement].) *)
Definition init (data : gmap string pyval) : raises t :=
  construct "BylawsRequest"
    (checked_ap (checked_ap (checked_ap (checked_ap (checked_ap
     (checked_ap (checked_ap (Valid Build_t)
      (validated_str validators "company_name" data))
      (validated_str validators "principal_office" data))
      (validated_str validators "fiscal_year_end" data))
      (checked_bind (int_field "board_size" data) (at_least 1 "board_size")))
      (list_str_field "officer_titles" data))
      (validated_str validators "annual_meeting_month" data))
      (checked_bind
         (checked_bind (int_field "quorum_percentage" data)
                       (at_least 0 "quorum_percentage"))
         (at_most 100 "quorum_percentage"))).

End BylawsRequest.


(* ===================================================================== *)
(** * The clock and the canvas *)
(* ===================================================================== *)

Module Datetime.

Definition month_names : list string :=
  ["January"; "February"; "March"; "April"; "May"; "June";
   "July"; "August"; "September"; "October"; "November"; "December"].

Definition month_name (m : Z) : string :=
  default EmptyString (month_names !! Z.to_nat (m - 1)).

Definition two_digits (n : Z) : string :=
  if n <? 10 then "0" +:+ pretty n else pretty n.

(** [t.strftime(fmt)] for the directives the generators use: [%d] is the
    day of the month on two digits, [%B] the full month name and [%Y]
    the year. *)
Fixpoint strftime (t : datetime) (fmt : string) : string :=
  match fmt with
  | EmptyString => EmptyString
  | String "%" (String "d" rest) => two_digits (day t) +:+ strftime t rest
  | String "%" (String "B" rest) => month_name (month t) +:+ strftime t rest
  | String "%" (String "Y" rest) => pretty (year t) +:+ strftime t rest
  | String c rest => String c (strftime t rest)
  end.

End Datetime.

Inductive alignment := Left | Centred.

(** One text draw: where it is anchored, in which font, and what it says. *)
Record draw := {
  align : alignment;
  xpos : Z;
  ypos : Z;
  font : string;
  fontsz : Z;
  text : string
}.

Record Canvas := {
  pagesize : Z * Z;
  fontname : string;
  fontsize : Z;
  drawn : list draw
}.

(** What [c.save()] leaves in the buffer, as far as [app.py] decides it:
    the one page of the document, that is its size and the text drawn on
    it.  The bytes that reportlab serialises this to (which also carry a
    creation date and a document identifier that reportlab takes from the
    system time) are not represented. *)
Record BytesIO := { page : Z * Z; content : list draw }.

(** [reportlab.lib.pagesizes.letter], in points. *)
Definition letter : Z * Z := (612, 792).

Definition new_canvas (size : Z * Z) : Canvas :=
  {| pagesize := size; fontname := "Helvetica"; fontsize := 12; drawn := [] |}.

Definition setFont (c : Canvas) (name : string) (sz : Z) : Canvas :=
  {| pagesize := pagesize c; fontname := name; fontsize := sz;
     drawn := drawn c |}.

Definition put (a : alignment) (c : Canvas) (x0 y0 : Z) (s : string)
  : Canvas :=
  {| pagesize := pagesize c; fontname := fontname c; fontsize := fontsize c;
     drawn := drawn c ++ [{| align := a; xpos := x0; ypos := y0;
                             font := fontname c; fontsz := fontsize c;
                             text := s |}] |}.

Definition drawString : Canvas -> Z -> Z -> string -> Canvas := put Left.
Definition drawCentredString : Canvas -> Z -> Z -> string -> Canvas :=
  put Centred.

Definition save (c : Canvas) : BytesIO :=
  {| page := pagesize c; content := drawn c |}.

(** The text of a document: the drawn strings in drawing order, one per
    line.  It stands for what the tests obtain with [page.extract_text()],
    up to how the PDF reader breaks and spaces the lines. *)
Definition extract_text (doc : BytesIO) : string :=
  PyStr.join (String PyStr.newline EmptyString) (text <$> content doc).

(* ===================================================================== *)
(** * The document generators *)
(* ===================================================================== *)

Import Datetime.
Local Open Scope py_scope.

Section Generators.
Context {G : Type}.

Definition generate_delaware_articles (company_data : CompanyFormation.t)
  : Py G BytesIO :=
  let c := new_canvas letter in
  let c := setFont c "Helvetica-Bold" 16 in
  let c := drawCentredString c 300 750 "CERTIFICATE OF INCORPORATION" in
  let c := setFont c "Helvetica" 12 in
  let c := drawString c 50 700 "FIRST: The name of this corporation is:" in
  let c := drawString c 70 680 (CompanyFormation.company_name company_data) in
  let c := drawString c 50 630 "SECOND: Its registered office in the State of Delaware is located at:" in
  let c := drawString c 70 610 "251 Little Falls Drive, Wilmington, New Castle County, Delaware 19808" in
  let c := drawString c 50 560 "THIRD: The purpose of the corporation is to engage in any lawful act or activity for" in
  let c := drawString c 50 540 "which corporations may be organized under the General Corporation Law of Delaware." in
  let c := drawString c 50 490 "FOURTH: The total number of shares of stock which this corporation is authorized" in
  let c := drawString c 50 470 "to issue is 1,000 shares of Common Stock with $0.01 par value per share." in
  let c := drawString c 50 200 "IN WITNESS WHEREOF, the undersigned, being the incorporator hereinbefore named," in
  let* t1 := datetime_now in
  let c := drawString c 50 180 ("has executed this Certificate of Incorporation this " +:+ strftime t1 "%d" +:+ " day of") in
  let* t2 := datetime_now in
  let c := drawString c 50 160 (strftime t2 "%B, %Y" +:+ ".") in
  let c := drawString c 50 100 "Incorporator:" in
  let c := drawString c 70 80 (CompanyFormation.incorporator_name company_data) in
  ret (save c).

Definition generate_delaware_llc_certificate
    (company_data : CompanyFormation.t) : Py G BytesIO :=
  let c := new_canvas letter in
  let c := setFont c "Helvetica-Bold" 16 in
  let c := drawCentredString c 300 750 "CERTIFICATE OF FORMATION" in
  let c := setFont c "Helvetica" 12 in
  let c := drawString c 50 700 "FIRST: The name of the limited liability company is:" in
  let c := drawString c 70 680 (CompanyFormation.company_name company_data) in
  let c := drawString c 50 630 "SECOND: The address of its registered office in the State of Delaware is:" in
  let c := drawString c 70 610 "251 Little Falls Drive, Wilmington, New Castle County, Delaware 19808" in
  let c := drawString c 50 560 "THIRD: The name and address of its registered agent in the State of Delaware is:" in
  let c := drawString c 70 540 "Corporation Service Company" in
  let c := drawString c 70 520 "251 Little Falls Drive" in
  let c := drawString c 70 500 "Wilmington, DE 19808" in
  let c := drawString c 50 450 "FOURTH: The limited liability company shall be managed by its members." in
  let* t1 := datetime_now in
  let c := drawString c 50 200 ("IN WITNESS WHEREOF, the undersigned has executed this Certificate of Formation this " +:+ strftime t1 "%d" +:+ " day of") in
  let* t2 := datetime_now in
  let c := drawString c 50 180 (strftime t2 "%B, %Y" +:+ ".") in
  let c := drawString c 50 100 "Authorized Person:" in
  let c := drawString c 70 80 (CompanyFormation.incorporator_name company_data) in
  ret (save c).

Definition generate_california_articles (company_data : CompanyFormation.t)
  : Py G BytesIO :=
  let c := new_canvas letter in
  let c := setFont c "Helvetica-Bold" 16 in
  let c := drawCentredString c 300 750 "ARTICLES OF INCORPORATION" in
  let c := setFont c "Helvetica" 12 in
  let c := drawString c 50 700 "ARTICLE I: The name of this corporation is:" in
  let c := drawString c 70 680 (CompanyFormation.company_name company_data) in
  let c := drawString c 50 630 "ARTICLE II: The purpose of the corporation is to engage in any lawful act or activity" in
  let c := drawString c 50 610 "for which a corporation may be organized under the General Corporation Law of California." in
  let c := drawString c 50 560 "ARTICLE III: The name and address in California of the corporation's initial agent for service of process is:" in
  let c := drawString c 70 540 "California Registered Agent, Inc." in
  let c := drawString c 70 520 "123 Main Street" in
  let c := drawString c 70 500 "Los Angeles, CA 90001" in
  let c := drawString c 50 200 "IN WITNESS WHEREOF, the undersigned, being the incorporator hereinbefore named," in
  let* t1 := datetime_now in
  let c := drawString c 50 180 ("has executed these Articles of Incorporation this " +:+ strftime t1 "%d" +:+ " day of") in
  let* t2 := datetime_now in
  let c := drawString c 50 160 (strftime t2 "%B, %Y" +:+ ".") in
  let c := drawString c 50 100 "Incorporator:" in
  let c := drawString c 70 80 (CompanyFormation.incorporator_name company_data) in
  ret (save c).

Definition generate_california_llc_certificate
    (company_data : CompanyFormation.t) : Py G BytesIO :=
  let c := new_canvas letter in
  let c := setFont c "Helvetica-Bold" 16 in
  let c := drawCentredString c 300 750 "ARTICLES OF ORGANIZATION" in
  let c := setFont c "Helvetica" 12 in
  let c := drawString c 50 700 "ARTICLE I: The name of the limited liability company is:" in
  let c := drawString c 70 680 (CompanyFormation.company_name company_data) in
  let c := drawString c 50 630 "ARTICLE II: The purpose of the limited liability company is to engage in any lawful business." in
  let c := drawString c 50 560 "ARTICLE III: The name and address in California of the LLC's initial agent for service of process is:" in
  let c := drawString c 70 540 "California Registered Agent, Inc." in
  let c := drawString c 70 520 "123 Main Street" in
  let c := drawString c 70 500 "Los Angeles, CA 90001" in
  let* t1 := datetime_now in
  let c := drawString c 50 200 ("IN WITNESS WHEREOF, the undersigned has executed these Articles of Organization this " +:+ strftime t1 "%d" +:+ " day of") in
  let* t2 := datetime_now in
  let c := drawString c 50 180 (strftime t2 "%B, %Y" +:+ ".") in
  let c := drawString c 50 100 "Authorized Person:" in
  let c := drawString c 70 80 (CompanyFormation.incorporator_name company_data) in
  ret (save c).

(** One turn of the loop over [officer_titles] (lines 369-371): draw the
    title at the cursor, then move the cursor down. *)
Definition officer_line (st : Canvas * Z) (title : string) : Canvas * Z :=
  let '(c, y) := st in
  (drawString c 70 y ("- " +:+ title), y - 20).

Definition generate_bylaws (bylaws_data : BylawsRequest.t) : Py G BytesIO :=
  let c := new_canvas letter in
  let c := setFont c "Helvetica-Bold" 16 in
  let c := drawCentredString c 300 750 "CORPORATE BYLAWS OF" in
  let c := drawCentredString c 300 730 (PyStr.upper (BylawsRequest.company_name bylaws_data)) in
  let c := setFont c "Helvetica-Bold" 14 in
  let c := drawString c 50 680 "ARTICLE I - OFFICES" in
  let c := setFont c "Helvetica" 12 in
  let c := drawString c 50 660 "The principal office of the corporation shall be located at:" in
  let c := drawString c 70 640 (BylawsRequest.principal_office bylaws_data) in
  let c := setFont c "Helvetica-Bold" 14 in
  let c := drawString c 50 600 "ARTICLE II - SHAREHOLDERS MEETINGS" in
  let c := setFont c "Helvetica" 12 in
  let c := drawString c 50 580 "1. Annual Meeting. The annual meeting of shareholders shall be held in" in
  let c := drawString c 70 560 (BylawsRequest.annual_meeting_month bylaws_data +:+ " of each year.") in
  let c := drawString c 50 540 ("2. Quorum. " +:+ pretty (BylawsRequest.quorum_percentage bylaws_data) +:+ "% of the outstanding shares shall constitute") in
  let c := drawString c 70 520 "a quorum for the transaction of business." in
  let c := setFont c "Helvetica-Bold" 14 in
  let c := drawString c 50 480 "ARTICLE III - BOARD OF DIRECTORS" in
  let c := setFont c "Helvetica" 12 in
  let c := drawString c 50 460 ("1. Number. The Board of Directors shall consist of " +:+ pretty (BylawsRequest.board_size bylaws_data)) in
  let c := drawString c 70 440 "director(s)." in
  let c := setFont c "Helvetica-Bold" 14 in
  let c := drawString c 50 400 "ARTICLE IV - OFFICERS" in
  let c := setFont c "Helvetica" 12 in
  let c := drawString c 50 380 "1. Officers. The officers of the corporation shall be:" in
  let y := 360 in
  let '(c, y) :=
    fold_left officer_line (BylawsRequest.officer_titles bylaws_data) (c, y) in
  let c := setFont c "Helvetica-Bold" 14 in
  let c := drawString c 50 (y - 20) "ARTICLE V - FISCAL YEAR" in
  let c := setFont c "Helvetica" 12 in
  let c := drawString c 50 (y - 40) ("The fiscal year of the corporation shall end on " +:+ BylawsRequest.fiscal_year_end bylaws_data) in
  let c := drawString c 50 (y - 60) "of each year." in
  ret (save c).

End Generators.

(* ===================================================================== *)
(** * The request handlers *)
(* ===================================================================== *)

(** An incoming POST request, as far as the handlers look at it. *)
Inductive request :=
| JsonRequest (body : pyval)
| MalformedJson
| FormRequest (form : gmap string string).

Definition is_json (req : request) : bool :=
  match req with
  | JsonRequest _ | MalformedJson => true
  | FormRequest _ => false
  end.

(** [request.get_json()]: the decoded body; it raises when the body does
    not parse or the request does not carry JSON. *)
Definition get_json (req : request) : raises pyval :=
  match req with
  | JsonRequest body => Return body
  | MalformedJson => Raise BadRequest
  | FormRequest _ => Raise UnsupportedMediaType
  end.

(** [request.form.get(key)] *)
Definition form_get (req : request) (key : string) : pyval :=
  match req with
  | FormRequest form =>
      match form !! key with
      | Some s => PStr s
      | None => PNone
      end
  | _ => PNone
  end.

(** Passing [data] as keyword arguments needs it to be a mapping. *)
Definition kwargs (data : pyval) : raises (gmap string pyval) :=
  match data with
  | PDict d => Return d
  | _ => Raise (TypeError "argument after ** must be a mapping")
  end.

(** The text of an error body: a literal of the source, or [str(e)]. *)
Inductive message :=
| Text (s : string)
| StrOf (e : exn).

Inductive response :=
| json_error (error : message) (status : Z)
| file_response (pdf_buffer : BytesIO) (mimetype : string)
                (as_attachment : bool) (download_name : string).

Definition is_line_break (c : ascii) : bool :=
  Ascii.eqb c PyStr.newline || Ascii.eqb c PyStr.carriage_return.

Fixpoint has_line_break (s : string) : bool :=
  match s with
  | EmptyString => false
  | String c s' => is_line_break c || has_line_break s'
  end.

(** [flask.send_file] with a download name: the name goes into the
    [Content-Disposition] header of the response, and a header value that
    holds a carriage return or a line feed is refused with [ValueError]. *)
Definition send_file (pdf_buffer : BytesIO) (mimetype : string)
    (as_attachment : bool) (download_name : string) : raises response :=
  if has_line_break download_name
  then Raise (ValueError "Header values must not contain newline characters.")
  else Return (file_response pdf_buffer mimetype as_attachment download_name).

(** Lines 208-216 of [form_company]: the JSON body, or the four fields of
    the form. *)
Definition posted_data (req : request) : raises pyval :=
  if is_json req then get_json req
  else Return (PDict (list_to_map
    [("company_name", form_get req "company_name");
     ("state_of_formation", form_get req "state_of_formation");
     ("company_type", form_get req "company_type");
     ("incorporator_name", form_get req "incorporator_name")])).

Section Handlers.
Context {G : Type}.

Import CompanyFormation.

(** Lines 220-237: the branch on jurisdiction and entity type.  A branch
    either leaves the handler with a response ([inl]) or binds
    [pdf_buffer] ([inr]). *)
Definition form_company_dispatch (company_data : CompanyFormation.t)
  : Py G (response + BytesIO) :=
  if String.eqb (state_of_formation company_data) "DE" then
    if String.eqb (company_type company_data) "corporation" then
      let* pdf_buffer := generate_delaware_articles company_data in
      ret (inr pdf_buffer)
    else if String.eqb (company_type company_data) "LLC" then
      let* pdf_buffer := generate_delaware_llc_certificate company_data in
      ret (inr pdf_buffer)
    else
      ret (inl (json_error (Text "Unsupported company type") 400))
  else if String.eqb (state_of_formation company_data) "CA" then
    if String.eqb (company_type company_data) "corporation" then
      let* pdf_buffer := generate_california_articles company_data in
      ret (inr pdf_buffer)
    else if String.eqb (company_type company_data) "LLC" then
      let* pdf_buffer := generate_california_llc_certificate company_data in
      ret (inr pdf_buffer)
    else
      ret (inl (json_error (Text "Unsupported company type") 400))
  else
    ret (inl (json_error
      (Text "Only Delaware and California entities are supported at this time")
      400)).

Definition form_company (req : request) : Py G response :=
  try_except
    (let* data := lift (posted_data req) in
     let* fields := lift (kwargs data) in
     let* company_data := lift (CompanyFormation.init fields) in
     let* branch := form_company_dispatch company_data in
     match branch with
     | inl resp => ret resp
     | inr pdf_buffer =>
         lift (send_file pdf_buffer "application/pdf" true
                 (company_name company_data +:+ "_certificate.pdf"))
     end)
    [("Exception", fun e => ret (json_error (StrOf e) 400))].

Definition generate_company_bylaws (req : request) : Py G response :=
  try_except
    (let* data := lift (get_json req) in
     let* fields := lift (kwargs data) in
     let* bylaws_data := lift (BylawsRequest.init fields) in
     let* pdf_buffer := generate_bylaws bylaws_data in
     lift (send_file pdf_buffer "application/pdf" false
             (PyStr.replace_char " " "_"
                (BylawsRequest.company_name bylaws_data) +:+ "_bylaws.pdf")))
    [("ValidationError", fun e => ret (json_error (StrOf e) 400));
     ("Exception",
      fun e => ret (json_error (Text "An unexpected error occurred") 500))].

End Handlers.

(* ===================================================================== *)
(** * Definitions used to state the properties *)
(* ===================================================================== *)

(** [s] occurs in [t]. *)
Definition substring (s t : string) : Prop :=
  exists before after, t = before +:+ s +:+ after.

(** Every character of [s] satisfies [p]. *)
Fixpoint all_chars (p : ascii -> bool) (s : string) : bool :=
  match s with
  | EmptyString => true
  | String c s' => p c && all_chars p s'
  end.

(** The 256 characters. *)
Definition alphabet : list ascii := map ascii_of_nat (seq 0 256).





Definition newline_str : string := String PyStr.newline EmptyString.




(** The lines the loop over the officer titles draws in font [f] at size
    [sz], starting with the cursor at [y0]. *)
Fixpoint officer_draws (f : string) (sz : Z) (y0 : Z) (titles : list string)
  : list draw :=
  match titles with
  | [] => []
  | title :: rest =>
      Build_draw Left 70 y0 f sz ("- " +:+ title)
      :: officer_draws f sz (y0 - 20) rest
  end.

Definition is_centred (d : draw) : bool :=
  match align d with
  | Centred => true
  | Left => false
  end.

Definition centred_draws (doc : BytesIO) : list draw :=
  List.filter is_centred (content doc).

(** The layout of the officers article as the specification words it:
    the [k]-th of the [n] titles at [y = 360 - 20 * (k - 1)], and the
    ARTICLE V heading at [y = 360 - 20 * n - 20], which it takes to be 20pt
    below the last officer line. *)
Definition officer_layout_as_claimed (titles : list string) (doc : BytesIO)
  : Prop :=
  (forall k title, titles !! k = Some title ->
     content doc !! (15 + k)%nat =
       Some (Build_draw Left 70 (360 - 20 * Z.of_nat k) "Helvetica" 12
               ("- " +:+ title))) /\
  (exists heading,
     content doc !! (15 + length titles)%nat = Some heading /\
     text heading = "ARTICLE V - FISCAL YEAR" /\
     ypos heading = 360 - 20 * Z.of_nat (length titles) - 20 /\
     forall last, content doc !! (15 + length titles - 1)%nat = Some last ->
                  ypos heading = ypos last - 20).

(** The four formation generators. *)
Definition formation_generators {G : Type}
  : list (CompanyFormation.t -> Py G BytesIO) :=
  [generate_delaware_articles; generate_delaware_llc_certificate;
   generate_california_articles; generate_california_llc_certificate].

(** ** Sample inputs: the records of the test suite and of the schema *)

Definition sample_clock (t : nat) : datetime :=
  {| year := 2024; month := 2; day := 5;
     hour := 10; minute := 30; second := 0; microsecond := 0 |}.

Definition sample_world : world unit :=
  {| clock := sample_clock; reads := 0; shared := tt |}.

(** [VALID_BYLAWS_DATA] *)
Definition valid_bylaws : BylawsRequest.t :=
  {| BylawsRequest.company_name := "Test Corporation";
     BylawsRequest.principal_office :=
       "123 Main St, Suite 100, San Francisco, CA 94105";
     BylawsRequest.fiscal_year_end := "12-31";
     BylawsRequest.board_size := 5;
     BylawsRequest.officer_titles :=
       ["Chief Executive Officer"; "Secretary"; "Treasurer"];
     BylawsRequest.annual_meeting_month := "June";
     BylawsRequest.quorum_percentage := 51 |}.

(** [min_data] *)
Definition minimal_bylaws : BylawsRequest.t :=
  {| BylawsRequest.company_name := "Minimal Corp";
     BylawsRequest.principal_office := "1 Main St";
     BylawsRequest.fiscal_year_end := "01-01";
     BylawsRequest.board_size := 1;
     BylawsRequest.officer_titles := ["President"];
     BylawsRequest.annual_meeting_month := "January";
     BylawsRequest.quorum_percentage := 0 |}.

(** [max_data] *)
Definition maximal_bylaws : BylawsRequest.t :=
  {| BylawsRequest.company_name := "Maximal Corp";
     BylawsRequest.principal_office :=
       "Very Long Address, Suite 1000000, Maximum City, Maximum State, 99999";
     BylawsRequest.fiscal_year_end := "12-31";
     BylawsRequest.board_size := 99;
     BylawsRequest.officer_titles :=
       (fun i : nat => "Officer " +:+ pretty i) <$> seq 0 20;
     BylawsRequest.annual_meeting_month := "December";
     BylawsRequest.quorum_percentage := 100 |}.

(** The first example of [form_company_schema]. *)
Definition acme : CompanyFormation.t :=
  {| CompanyFormation.company_name := "Acme Corp, Inc.";
     CompanyFormation.state_of_formation := "DE";
     CompanyFormation.company_type := "corporation";
     CompanyFormation.incorporator_name := "John Smith" |}.

(** The JSON object of a formation request. *)
Definition formation_fields (name state type incorporator : string)
  : gmap string pyval :=
  list_to_map
    [("company_name", PStr name);
     ("state_of_formation", PStr state);
     ("company_type", PStr type);
     ("incorporator_name", PStr incorporator)].

(** [VALID_BYLAWS_DATA] as a JSON object, with the given fiscal year end. *)
Definition bylaws_fields (fiscal : string) : gmap string pyval :=
  list_to_map
    [("company_name", PStr "Test Corporation");
     ("principal_office",
      PStr "123 Main St, Suite 100, San Francisco, CA 94105");
     ("fiscal_year_end", PStr fiscal);
     ("board_size", PInt 5);
     ("officer_titles",
      PList [PStr "Chief Executive Officer"; PStr "Secretary";
             PStr "Treasurer"]);
     ("annual_meeting_month", PStr "June");
     ("quorum_percentage", PInt 51)].

Definition unsupported_jurisdiction : response :=
  json_error
    (Text "Only Delaware and California entities are supported at this time")
    400.

Definition unsupported_type : response :=
  json_error (Text "Unsupported company type") 400.

(** The response that sends a formation document. *)
Definition certificate (r : CompanyFormation.t) (doc : BytesIO) : response :=
  file_response doc "application/pdf" true
    (CompanyFormation.company_name r +:+ "_certificate.pdf").

(** What [form_company] answers once the document is made: the file, or
    the 400 of its [except] clause when [send_file] refuses the name. *)
Definition certificate_or_refusal (r : CompanyFormation.t) (doc : BytesIO)
  : response :=
  match send_file doc "application/pdf" true
          (CompanyFormation.company_name r +:+ "_certificate.pdf") with
  | Return resp => resp
  | Raise e => json_error (StrOf e) 400
  end.

Definition refused_name : response :=
  json_error
    (StrOf (ValueError "Header values must not contain newline characters."))
    400.



(** The four pairs that [form_company] serves, each with its generator. *)
Definition served {G : Type}
  : list (string * string * (CompanyFormation.t -> Py G BytesIO)) :=
  [("DE", "corporation", generate_delaware_articles);
   ("DE", "LLC", generate_delaware_llc_certificate);
   ("CA", "corporation", generate_california_articles);
   ("CA", "LLC", generate_california_llc_certificate)].

(** The first body of [test_state_validation], with the state code in
    lower case. *)
Definition lower_case_delaware : gmap string pyval :=
  formation_fields "Test Company" "de" "corporation" "Test User".


(* ===================================================================== *)
(** * The schema examples and the form page *)
(* ===================================================================== *)

(** Lines 250-275 of [form_company_schema]: the examples it hands to
    [jsonify]. *)
Definition form_company_schema : list (gmap string pyval) :=
  [list_to_map
     [("company_name", PStr "Acme Corp, Inc.");
      ("state_of_formation", PStr "DE");
      ("company_type", PStr "corporation");
      ("incorporator_name", PStr "John Smith")];
   list_to_map
     [("company_name", PStr "Smith & Sons, LLC");
      ("state_of_formation", PStr "DE");
      ("company_type", PStr "LLC");
      ("incorporator_name", PStr "Jane Doe")];
   list_to_map
     [("company_name", PStr "Tech Innovators Co.");
      ("state_of_formation", PStr "CA");
      ("company_type", PStr "corporation");
      ("incorporator_name", PStr "Michael Johnson")];
   list_to_map
     [("company_name", PStr "California Dreaming, LLC");
      ("state_of_formation", PStr "CA");
      ("company_type", PStr "LLC");
      ("incorporator_name", PStr "Emily Chen")]].

(** Lines 280-287 of [company_form]: the codes the page offers. *)
Definition company_form_states : list string :=
  ["AL"; "AK"; "AZ"; "AR"; "CA"; "CO"; "CT"; "DE"; "FL"; "GA";
   "HI"; "ID"; "IL"; "IN"; "IA"; "KS"; "KY"; "LA"; "ME"; "MD";
   "MA"; "MI"; "MN"; "MS"; "MO"; "MT"; "NE"; "NV"; "NH"; "NJ";
   "NM"; "NY"; "NC"; "ND"; "OH"; "OK"; "OR"; "PA"; "RI"; "SC";
   "SD"; "TN"; "TX"; "UT"; "VT"; "VA"; "WA"; "WV"; "WI"; "WY";
   "DC"; "PR"; "GU"; "VI"; "AS"; "MP"].

Definition dquote : string := String (ascii_of_N 34) EmptyString.

(** Line 312 of [company_form]: the markup of one option, and the options
    of the select element joined. *)
Definition state_option (state : string) : string :=
  "<option value=" +:+ dquote +:+ state +:+ dquote +:+ ">" +:+ state
    +:+ "</option>".

Definition state_options : string :=
  PyStr.join EmptyString (state_option <$> company_form_states).

(** The form that the page posts to [/form-company]. *)
Definition posted_form (name state type incorporator : string) : request :=
  FormRequest (list_to_map
    [("company_name", name); ("state_of_formation", state);
     ("company_type", type); ("incorporator_name", incorporator)]).



(** Two readings of the clock at midnight of a month's end, and two
    readings that share the day of the first and the month of the
    second. *)
Definition midnight_clock (t : nat) : datetime :=
  match t with
  | O => {| year := 2024; month := 1; day := 31;
            hour := 23; minute := 59; second := 59; microsecond := 999990 |}
  | _ => {| year := 2024; month := 2; day := 1;
            hour := 0; minute := 0; second := 0; microsecond := 25 |}
  end.

Definition other_clock (t : nat) : datetime :=
  match t with
  | O => {| year := 1999; month := 7; day := 31;
            hour := 8; minute := 0; second := 0; microsecond := 0 |}
  | _ => {| year := 2024; month := 2; day := 9;
            hour := 8; minute := 0; second := 0; microsecond := 0 |}
  end.

Definition midnight_world : world unit :=
  {| clock := midnight_clock; reads := 0; shared := tt |}.

Definition other_world : world unit :=
  {| clock := other_clock; reads := 0; shared := tt |}.

(* ===================================================================== *)
(** * Facts about strings *)
(* ===================================================================== *)

Module PyStrFacts.
Import PyStr.

Lemma app_cons (c : ascii) (s t : string) :
  String c s +:+ t = String c (s +:+ t).
Proof. reflexivity. Qed.

Lemma app_nil_r (s : string) : s +:+ EmptyString = s.
Proof.
  induction s as [|c s IH]; [reflexivity|]. rewrite app_cons. now rewrite IH.
Qed.

Lemma app_assoc (s t u : string) : (s +:+ t) +:+ u = s +:+ (t +:+ u).
Proof.
  induction s as [|c s IH]; [reflexivity|]. rewrite !app_cons. now rewrite IH.
Qed.

Lemma app_eq_nil (s t : string) :
  s +:+ t = EmptyString -> s = EmptyString /\ t = EmptyString.
Proof.
  destruct s; [|discriminate]. intros H. change (t = EmptyString) in H. now subst.
Qed.

Lemma startswith_spec (s p : string) :
  startswith s p = true <-> exists rest, s = p +:+ rest.
Proof.
  revert s. induction p as [|b p IH]; intros s; simpl.
  - split; [intros _; now exists s|reflexivity].
  - destruct s as [|a s].
    + split; [discriminate|intros [rest H]; discriminate].
    + rewrite andb_true_iff, Ascii.eqb_eq, IH. split.
      * intros [-> [rest ->]]. now exists rest.
      * intros [rest H]. rewrite app_cons in H. injection H as -> ->. eauto.
Qed.

Lemma contains_spec (t s : string) :
  contains t s = true <-> substring s t.
Proof.
  unfold substring. induction t as [|c t IH]; simpl.
  - rewrite orb_false_r, startswith_spec. split.
    + intros [rest H]. now exists EmptyString, rest.
    + intros [[|? ?] [after H]]; [eauto|discriminate].
  - rewrite orb_true_iff, startswith_spec, IH. split.
    + intros [[rest H]|[before [after H]]].
      * now exists EmptyString, rest.
      * exists (String c before), after. now rewrite H.
    + intros [[|c' before] [after H]].
      * left. now exists after.
      * right. rewrite app_cons in H. injection H as -> ->. eauto.
Qed.

Lemma substring_refl (s : string) : substring s s.
Proof. exists EmptyString, EmptyString. now rewrite app_nil_r. Qed.

Lemma substring_app_l (s t u : string) :
  substring s t -> substring s (u +:+ t).
Proof. intros [a [b ->]]. exists (u +:+ a), b. now rewrite app_assoc. Qed.

Lemma substring_app_r (s t u : string) :
  substring s t -> substring s (t +:+ u).
Proof. intros [a [b ->]]. exists a, (b +:+ u). now rewrite !app_assoc. Qed.

Lemma substring_join (sep s : string) (parts : list string) (p : string) :
  In p parts -> substring s p -> substring s (join sep parts).
Proof.
  induction parts as [|q parts IH]; [intros []|]. intros Hin Hs.
  destruct parts as [|q' parts].
  - destruct Hin as [->|[]]. exact Hs.
  - change (substring s (q +:+ sep +:+ join sep (q' :: parts))).
    destruct Hin as [->|Hin].
    + now apply substring_app_r.
    + apply substring_app_l, substring_app_l. now apply IH.
Qed.

End PyStrFacts.

Module ReFacts.
Import PyStrFacts.

Lemma lang_cls_inv (items : list cls_item) (s : string) :
  lang (Cls items) s -> exists c, s = String c EmptyString /\ cls_has items c = true.
Proof. inversion 1; subst. eauto. Qed.

Lemma lang_seq_inv (r1 r2 : regex) (s : string) :
  lang (Seq r1 r2) s ->
  exists s1 s2, s = s1 +:+ s2 /\ lang r1 s1 /\ lang r2 s2.
Proof. inversion 1; subst. eauto. Qed.

Lemma nullable_lang (r : regex) : nullable r = true <-> lang r EmptyString.
Proof.
  split.
  - induction r; simpl; intros H; try discriminate.
    + constructor.
    + apply andb_true_iff in H as [H1 H2].
      change EmptyString with (EmptyString +:+ EmptyString). constructor; auto.
    + apply orb_true_iff in H as [H|H]; [apply lang_alt_l|apply lang_alt_r]; auto.
    + constructor.
  - intros H. remember EmptyString as s eqn:Hs. induction H; simpl; auto.
    + discriminate.
    + apply app_eq_nil in Hs as [-> ->]. now rewrite IHlang1, IHlang2.
    + now rewrite IHlang.
    + rewrite IHlang by assumption. apply orb_true_r.
Qed.

Lemma lang_der_sound (c : ascii) (r : regex) (s : string) :
  lang (der c r) s -> lang r (String c s).
Proof.
  revert s. induction r; simpl; intros s H.
  - inversion H.
  - inversion H.
  - destruct (cls_has items c) eqn:E; inversion H; subst. now constructor.
  - destruct (nullable r1) eqn:E.
    + inversion H; subst.
      * inversion H3; subst. rewrite <- app_cons. constructor; auto.
      * change (String c s) with (EmptyString +:+ String c s). constructor; auto.
        now apply nullable_lang.
    + inversion H; subst. rewrite <- app_cons. constructor; auto.
  - inversion H; subst; [apply lang_alt_l|apply lang_alt_r]; auto.
  - inversion H; subst. rewrite <- app_cons. constructor; auto.
Qed.

Lemma lang_der_complete (c : ascii) (r : regex) (w : string) :
  lang r (String c w) -> lang (der c r) w.
Proof.
  intros H. remember (String c w) as t eqn:Ht. revert w Ht.
  induction H; intros w Ht; simpl; try discriminate.
  - injection Ht as -> <-. rewrite H. constructor.
  - destruct s1 as [|c1 s1].
    + change (EmptyString +:+ s2) with s2 in Ht. subst s2.
      apply nullable_lang in H. rewrite H. apply lang_alt_r. auto.
    + rewrite app_cons in Ht. injection Ht as -> <-.
      destruct (nullable r1); [apply lang_alt_l|]; constructor; auto.
  - apply lang_alt_l. auto.
  - apply lang_alt_r. auto.
  - destruct s1 as [|c1 s1].
    + change (EmptyString +:+ s2) with s2 in Ht. auto.
    + rewrite app_cons in Ht. injection Ht as -> <-. constructor; auto.
Qed.

(** The derivative matcher decides the language of the pattern. *)
Lemma fullmatch_lang (r : regex) (s : string) :
  fullmatch r s = true <-> lang r s.
Proof.
  revert r. induction s as [|c s IH]; intros r; simpl.
  - apply nullable_lang.
  - rewrite IH. split; [apply lang_der_sound|apply lang_der_complete].
Qed.

Lemma chomp_spec (s s' : string) :
  chomp s = Some s' <-> s = s' +:+ newline_str.
Proof.
  revert s'. induction s as [|c s IH]; intros s'.
  - simpl. split; [discriminate|destruct s'; discriminate].
  - destruct s as [|c2 s].
    + simpl. destruct (Ascii.eqb_spec c PyStr.newline) as [->|Hne].
      * split; [now intros [= <-]|].
        destruct s' as [|? [|? ?]]; try discriminate; auto.
      * split; [discriminate|].
        destruct s' as [|? [|? ?]]; try discriminate.
        intros [= ->]. now destruct Hne.
    + change (chomp (String c (String c2 s)))
        with (option_map (String c) (chomp (String c2 s))).
      destruct s' as [|c' s'].
      * split; [destruct (chomp _); discriminate|intros [= _ ?]; discriminate].
      * rewrite app_cons. specialize (IH s').
        destruct (chomp (String c2 s)) as [u|]; simpl.
        -- split.
           ++ intros [= -> ->]. f_equal. now apply IH.
           ++ intros [= -> H]. apply IH in H. now injection H as ->.
        -- split; [discriminate|]. intros [= -> H]. apply IH in H. discriminate.
Qed.

(** What [re.match] with both anchors accepts: a word of the pattern,
    possibly followed by one final newline. *)
Lemma match_anchored_spec (r : regex) (s : string) :
  match_anchored r s = true <->
  lang r s \/ exists s', s = s' +:+ newline_str /\ lang r s'.
Proof.
  unfold match_anchored. rewrite orb_true_iff, fullmatch_lang. split.
  - intros [H|H]; [now left|right].
    destruct (chomp s) as [s'|] eqn:E; [|discriminate].
    exists s'. split; [now apply chomp_spec|now apply fullmatch_lang].
  - intros [H|[s' [H1 H2]]]; [now left|right].
    apply chomp_spec in H1. rewrite H1. now apply fullmatch_lang.
Qed.

End ReFacts.

Module WordsFacts.
Import PyStrFacts ReFacts.

Lemma in_alphabet (c : ascii) : In c alphabet.
Proof.
  unfold alphabet. rewrite <- (ascii_nat_embedding c).
  apply in_map, in_seq. pose proof (nat_ascii_bounded c). lia.
Qed.






End WordsFacts.

(* ===================================================================== *)
(** * The fiscal year end *)
(* ===================================================================== *)



(* ===================================================================== *)
(** * The validators *)
(* ===================================================================== *)

Module ValidatorFacts.
Import PyStrFacts ReFacts.

Lemma lang_star_cls (items : list cls_item) (s : string) :
  lang (Star (Cls items)) s <-> all_chars (cls_has items) s = true.
Proof.
  split.
  - intros H. remember (Star (Cls items)) as r eqn:Hr.
    induction H; try discriminate; [reflexivity|].
    injection Hr as ->. apply lang_cls_inv in H as [c [-> Hc]].
    rewrite app_cons. simpl. rewrite Hc. now apply IHlang2.
  - induction s as [|c s IH]; simpl; [constructor|].
    intros [Hc Hs]%andb_true_iff.
    change (String c s) with (String c EmptyString +:+ s).
    constructor; [now constructor|auto].
Qed.

Lemma lang_plus_cls (items : list cls_item) (s : string) :
  lang (Plus (Cls items)) s <->
  s <> EmptyString /\ all_chars (cls_has items) s = true.
Proof.
  unfold Plus. split.
  - intros H. apply lang_seq_inv in H as [s1 [s2 [-> [H1 H2]]]].
    apply lang_cls_inv in H1 as [c [-> Hc]].
    apply lang_star_cls in H2. rewrite app_cons. simpl.
    split; [discriminate|]. now rewrite Hc.
  - intros [Hne Hall]. destruct s as [|c s]; [contradiction|].
    simpl in Hall. apply andb_true_iff in Hall as [Hc Hs].
    change (String c s) with (String c EmptyString +:+ s).
    constructor; [now constructor|now apply lang_star_cls].
Qed.

Lemma all_chars_app (p : ascii -> bool) (s t : string) :
  all_chars p (s +:+ t) = all_chars p s && all_chars p t.
Proof.
  induction s as [|c s IH]; [reflexivity|].
  rewrite app_cons. simpl. now rewrite IH, andb_assoc.
Qed.

(** [validate_company_name] accepts the non-empty strings over
    [[a-zA-Z0-9\s,.'&]]. *)
Lemma validate_company_name_spec (v : string) :
  validate_company_name v = Return v <->
  v <> EmptyString /\ all_chars (cls_has company_name_class) v = true.
Proof.
  unfold validate_company_name.
  assert (H : match_anchored company_name_pattern v = true <->
              v <> EmptyString /\ all_chars (cls_has company_name_class) v = true).
  { rewrite match_anchored_spec. unfold company_name_pattern.
    rewrite lang_plus_cls. split; [intros [H|[w [-> H]]]|tauto]; [exact H|].
    apply lang_plus_cls in H as [Hne Hall]. split.
    - destruct w; [contradiction|discriminate].
    - rewrite all_chars_app, Hall. reflexivity. }
  destruct (match_anchored company_name_pattern v); simpl.
  - split; [intros _; now apply H|reflexivity].
  - split; [discriminate|]. intros H'. apply H in H'. discriminate.
Qed.

Lemma validate_state_accepts (v : string) :
  PyStr.upper v ∈ states -> validate_state v = Return (PyStr.upper v).
Proof.
  intros H. unfold validate_state. now rewrite bool_decide_eq_true_2.
Qed.

Lemma validate_state_rejects (v : string) :
  PyStr.upper v ∉ states ->
  validate_state v = Raise (ValueError "Invalid US state or territory").
Proof.
  intros H. unfold validate_state. now rewrite bool_decide_eq_false_2.
Qed.

Lemma states_size : size states = 56%nat.
Proof. vm_compute. reflexivity. Qed.

End ValidatorFacts.
(* ===================================================================== *)
(** * What the models let through *)
(* ===================================================================== *)

Module CheckedFacts.






End CheckedFacts.

Module AcceptFacts.
Import CheckedFacts.







End AcceptFacts.

(* ===================================================================== *)
(** * C5: the fiscal year end of the bylaws *)
(* ===================================================================== *)


(* ===================================================================== *)
(** * The documents *)
(* ===================================================================== *)

Module LayoutFacts.

Lemma officer_loop (titles : list string) (c : Canvas) (y0 : Z) :
  fold_left officer_line titles (c, y0) =
  ({| pagesize := pagesize c; fontname := fontname c;
      fontsize := fontsize c;
      drawn := drawn c ++ officer_draws (fontname c) (fontsize c) y0 titles |},
   y0 - 20 * Z.of_nat (length titles)).
Proof.
  revert c y0. induction titles as [|title rest IH]; intros c y0.
  - simpl. rewrite app_nil_r. destruct c. f_equal. lia.
  - cbn [fold_left officer_line]. unfold drawString, put. rewrite IH.
    cbn [pagesize fontname fontsize drawn officer_draws length].
    rewrite <- app_assoc. f_equal. lia.
Qed.

Lemma officer_draws_length (f : string) (sz y0 : Z) (titles : list string) :
  length (officer_draws f sz y0 titles) = length titles.
Proof.
  revert y0. induction titles as [|t rest IH]; intros y0; simpl; auto.
Qed.

Lemma officer_draws_lookup (f : string) (sz y0 : Z) (titles : list string)
    (k : nat) (title : string) :
  titles !! k = Some title ->
  officer_draws f sz y0 titles !! k =
  Some (Build_draw Left 70 (y0 - 20 * Z.of_nat k) f sz ("- " +:+ title)).
Proof.
  revert y0 k. induction titles as [|t rest IH]; intros y0 k H.
  - discriminate.
  - destruct k as [|k]; simpl in *.
    + injection H as ->. do 2 f_equal. lia.
    + rewrite (IH _ _ H). do 2 f_equal. lia.
Qed.

Lemma officer_draws_ypos (f : string) (sz y0 : Z) (titles : list string)
    (d : draw) :
  d ∈ officer_draws f sz y0 titles ->
  y0 - 20 * Z.of_nat (length titles) < ypos d <= y0.
Proof.
  revert y0. induction titles as [|t rest IH]; intros y0 H; simpl in H.
  - inversion H.
  - apply elem_of_cons in H as [->|H]; simpl; [lia|].
    apply IH in H. lia.
Qed.

Lemma officer_draws_descend (f : string) (sz y0 : Z) (titles : list string) :
  StronglySorted (fun a b => ypos b < ypos a) (officer_draws f sz y0 titles).
Proof.
  revert y0. induction titles as [|t rest IH]; intros y0; simpl.
  - constructor.
  - constructor; [apply IH|]. apply Forall_forall. intros d Hd.
    apply officer_draws_ypos in Hd. simpl. lia.
Qed.

(** The bylaws document: fifteen fixed draws, the officer list, and the
    fiscal-year article placed from the cursor the list leaves. *)
Lemma generate_bylaws_content {G} (r : BylawsRequest.t) (w : world G) :
  let n := Z.of_nat (length (BylawsRequest.officer_titles r)) in
  generate_bylaws r w =
  (Return {| page := (612, 792); content :=
     [Build_draw Centred 300 750 "Helvetica-Bold" 16 "CORPORATE BYLAWS OF";
      Build_draw Centred 300 730 "Helvetica-Bold" 16
        (PyStr.upper (BylawsRequest.company_name r));
      Build_draw Left 50 680 "Helvetica-Bold" 14 "ARTICLE I - OFFICES";
      Build_draw Left 50 660 "Helvetica" 12
        "The principal office of the corporation shall be located at:";
      Build_draw Left 70 640 "Helvetica" 12 (BylawsRequest.principal_office r);
      Build_draw Left 50 600 "Helvetica-Bold" 14
        "ARTICLE II - SHAREHOLDERS MEETINGS";
      Build_draw Left 50 580 "Helvetica" 12
        "1. Annual Meeting. The annual meeting of shareholders shall be held in";
      Build_draw Left 70 560 "Helvetica" 12
        (BylawsRequest.annual_meeting_month r +:+ " of each year.");
      Build_draw Left 50 540 "Helvetica" 12
        ("2. Quorum. " +:+ pretty (BylawsRequest.quorum_percentage r)
           +:+ "% of the outstanding shares shall constitute");
      Build_draw Left 70 520 "Helvetica" 12
        "a quorum for the transaction of business.";
      Build_draw Left 50 480 "Helvetica-Bold" 14
        "ARTICLE III - BOARD OF DIRECTORS";
      Build_draw Left 50 460 "Helvetica" 12
        ("1. Number. The Board of Directors shall consist of "
           +:+ pretty (BylawsRequest.board_size r));
      Build_draw Left 70 440 "Helvetica" 12 "director(s).";
      Build_draw Left 50 400 "Helvetica-Bold" 14 "ARTICLE IV - OFFICERS";
      Build_draw Left 50 380 "Helvetica" 12
        "1. Officers. The officers of the corporation shall be:"]
     ++ officer_draws "Helvetica" 12 360 (BylawsRequest.officer_titles r)
     ++ [Build_draw Left 50 (360 - 20 * n - 20) "Helvetica-Bold" 14
           "ARTICLE V - FISCAL YEAR";
         Build_draw Left 50 (360 - 20 * n - 40) "Helvetica" 12
           ("The fiscal year of the corporation shall end on "
              +:+ BylawsRequest.fiscal_year_end r);
         Build_draw Left 50 (360 - 20 * n - 60) "Helvetica" 12
           "of each year."] |}, w).
Proof.
  intros n. unfold generate_bylaws. rewrite officer_loop.
  cbv [ret save drawString drawCentredString put setFont new_canvas
       pagesize fontname fontsize drawn letter].
  rewrite <- !app_assoc. reflexivity.
Qed.

End LayoutFacts.

(** Runs a generator on the canvas model. *)
Ltac run_generator :=
  cbv [generate_delaware_articles generate_delaware_llc_certificate
       generate_california_articles generate_california_llc_certificate
       bind datetime_now ret save drawString drawCentredString put setFont
       new_canvas pagesize fontname fontsize drawn letter clock reads shared
       app].

Ltac pick_member := repeat (first [left; reflexivity | right]).

(* ===================================================================== *)
(** * C2: the officers article of the bylaws *)
(* ===================================================================== *)

(** C2, as stated, fails: with one officer title the title is drawn at
    y = 360 and the ARTICLE V heading at y = 320, which is 40pt and not
    20pt below the last officer line. *)
Lemma heading_not_20pt_below_last_title :
  ~ (forall (r : BylawsRequest.t) (w : world unit) (doc : BytesIO),
       generate_bylaws r w = (Return doc, w) ->
       officer_layout_as_claimed (BylawsRequest.officer_titles r) doc).
Proof.
  intros H.
  specialize (H minimal_bylaws sample_world _
                (LayoutFacts.generate_bylaws_content _ _)).
  destruct H as [_ [heading [Hh [_ [Hy Hlast]]]]].
  specialize (Hlast _ eq_refl). rewrite Hy in Hlast.
  vm_compute in Hlast. discriminate.
Qed.

(** C2, amended.  For every bylaws record with [n] officer titles the
    document has [18 + n] draws; the [k]-th title (counting from 0) is
    drawn left-aligned at x = 70, y = 360 - 20k as "- title"; the ARTICLE V
    heading follows at y = 360 - 20n - 20, that is 20pt below the cursor
    the list leaves and 40pt below the last officer line; and the vertical
    positions strictly decrease in drawing order, so no two draws share a
    line. *)
Theorem bylaws_officer_layout {G} (r : BylawsRequest.t) (w : world G) :
  exists doc,
    generate_bylaws r w = (Return doc, w) /\
    length (content doc) = (18 + length (BylawsRequest.officer_titles r))%nat /\
    (forall k title,
       BylawsRequest.officer_titles r !! k = Some title ->
       content doc !! (15 + k)%nat =
         Some (Build_draw Left 70 (360 - 20 * Z.of_nat k) "Helvetica" 12
                 ("- " +:+ title))) /\
    content doc !! (15 + length (BylawsRequest.officer_titles r))%nat =
      Some (Build_draw Left 50
              (360 - 20 * Z.of_nat (length (BylawsRequest.officer_titles r)) - 20)
              "Helvetica-Bold" 14 "ARTICLE V - FISCAL YEAR") /\
    (forall last heading,
       content doc !! (14 + length (BylawsRequest.officer_titles r))%nat
         = Some last ->
       content doc !! (15 + length (BylawsRequest.officer_titles r))%nat
         = Some heading ->
       BylawsRequest.officer_titles r <> [] ->
       ypos heading = ypos last - 40) /\
    StronglySorted (fun a b => ypos b < ypos a) (content doc).
Proof.
  eexists. split; [apply LayoutFacts.generate_bylaws_content|].
  cbn [content]. set (titles := BylawsRequest.officer_titles r).
  set (officers := officer_draws "Helvetica" 12 360 titles).
  assert (Hlen : length officers = length titles)
    by apply LayoutFacts.officer_draws_length.
  assert (Hk : forall k title, titles !! k = Some title ->
            officers !! k = Some (Build_draw Left 70 (360 - 20 * Z.of_nat k)
                                    "Helvetica" 12 ("- " +:+ title)))
    by (intros; now apply LayoutFacts.officer_draws_lookup).
  assert (Hhead : forall (hd tl : list draw) i, length hd = 15%nat ->
            (hd ++ officers ++ tl) !! (15 + i)%nat = (officers ++ tl) !! i).
  { intros hd tl i Hhd. rewrite lookup_app_r by lia. f_equal. lia. }
  split; [|split; [|split; [|split]]].
  - rewrite !length_app, Hlen. simpl. lia.
  - intros k title Hkt. rewrite Hhead by reflexivity.
    rewrite lookup_app_l by (rewrite Hlen; now apply lookup_lt_Some in Hkt).
    now apply Hk.
  - rewrite Hhead by reflexivity. rewrite lookup_app_r by lia.
    now replace (length titles - length officers)%nat with 0%nat by lia.
  - intros last heading Hl Hh Hne.
    destruct (length titles) as [|m] eqn:Hm.
    { destruct titles; [contradiction|discriminate]. }
    replace (14 + S m)%nat with (15 + m)%nat in Hl by lia.
    rewrite Hhead in Hl, Hh by reflexivity.
    rewrite lookup_app_r in Hh by lia.
    replace (S m - length officers)%nat with 0%nat in Hh by lia.
    injection Hh as <-.
    destruct (titles !! m) as [title|] eqn:Ht.
    + rewrite lookup_app_l in Hl by lia. rewrite (Hk _ _ Ht) in Hl.
      injection Hl as <-. simpl. lia.
    + apply lookup_ge_None in Ht. lia.
  - apply StronglySorted_app_2.
    + intros a b Ha Hb. set_unfold in Ha. apply elem_of_app in Hb as [Hb|Hb].
      * apply LayoutFacts.officer_draws_ypos in Hb.
        repeat (destruct Ha as [->|Ha]; [simpl; lia|]). destruct Ha.
      * set_unfold in Hb.
        repeat (destruct Ha as [->|Ha];
                [destruct Hb as [->|[->|[->|[]]]]; simpl; lia|]).
        destruct Ha.
    + repeat (constructor; [|repeat constructor; simpl; lia]). constructor.
    + apply StronglySorted_app_2.
      * intros a b Ha Hb. apply LayoutFacts.officer_draws_ypos in Ha.
        set_unfold in Hb. destruct Hb as [->|[->|[->|[]]]]; simpl; lia.
      * apply LayoutFacts.officer_draws_descend.
      * repeat (constructor; [|repeat constructor; simpl; lia]). constructor.
Qed.

(* ===================================================================== *)
(** * C4: the input values in the text of the documents *)
(* ===================================================================== *)

Module TextFacts.
Import PyStrFacts.

Lemma text_in_document (doc : BytesIO) (s t : string) :
  t ∈ text <$> content doc -> substring s t ->
  substring s (extract_text doc).
Proof.
  intros Hin Hs. unfold extract_text.
  apply substring_join with (p := t); [now apply list_elem_of_In|exact Hs].
Qed.

Lemma officer_draws_texts (f : string) (sz y0 : Z) (titles : list string) :
  text <$> officer_draws f sz y0 titles = (fun t => "- " +:+ t) <$> titles.
Proof.
  revert y0. induction titles as [|t rest IH]; intros y0; [reflexivity|].
  simpl. now rewrite IH.
Qed.

Lemma officer_draws_not_centred (f : string) (sz y0 : Z)
    (titles : list string) :
  List.filter is_centred (officer_draws f sz y0 titles) = [].
Proof.
  revert y0. induction titles as [|t rest IH]; intros y0; [reflexivity|].
  simpl. apply IH.
Qed.

End TextFacts.

Ltac in_texts :=
  apply list_elem_of_In; cbn [fmap list_fmap content text In]; pick_member.

(** The drawn string [t] is one of the lines of the document. *)
Ltac appears_in line :=
  apply TextFacts.text_in_document with (t := line); [in_texts|].

Ltac appears_in_head line :=
  apply TextFacts.text_in_document with (t := line);
  [cbn [content]; rewrite fmap_app; apply elem_of_app; left; in_texts|].

(** C4.  Each formation generator draws [company_name] as it was passed
    in.  [generate_bylaws] draws it once, in the title, converted to upper
    case: for the records of the test suite ("Test Corporation", "Minimal
    Corp", "Maximal Corp") no line of the bylaws holds the name as passed
    in, and the text of the document holds it in upper case only. *)
Theorem bylaws_company_name_in_upper_case_only :
  (forall G (r : BylawsRequest.t) (w : world G),
     validate_company_name (BylawsRequest.company_name r) =
       Return (BylawsRequest.company_name r) ->
     exists doc,
       generate_bylaws r w = (Return doc, w) /\
       content doc !! 1%nat =
         Some {| align := Centred; xpos := 300; ypos := 730;
                 font := "Helvetica-Bold"; fontsz := 16;
                 text := PyStr.upper (BylawsRequest.company_name r) |}) /\
  Forall (fun r =>
    validate_company_name (BylawsRequest.company_name r) =
      Return (BylawsRequest.company_name r) /\
    exists doc,
      generate_bylaws r sample_world = (Return doc, sample_world) /\
      Forall (fun d =>
                PyStr.contains (text d) (BylawsRequest.company_name r) = false)
             (content doc) /\
      PyStr.contains (extract_text doc) (BylawsRequest.company_name r)
        = false /\
      PyStr.contains (extract_text doc)
        (PyStr.upper (BylawsRequest.company_name r)) = true)
    [valid_bylaws; minimal_bylaws; maximal_bylaws] /\
  (forall G (r : CompanyFormation.t) (w : world G),
     Forall (fun g : CompanyFormation.t -> Py G BytesIO =>
       exists doc w',
         g r w = (Return doc, w') /\
         content doc !! 2%nat =
           Some {| align := Left; xpos := 70; ypos := 680;
                   font := "Helvetica"; fontsz := 12;
                   text := CompanyFormation.company_name r |})
       formation_generators).
Proof.
  split; [|split].
  - intros G r w _. eexists.
    split; [apply LayoutFacts.generate_bylaws_content|reflexivity].
  - repeat (apply List.Forall_cons;
            [split; [vm_compute; reflexivity|];
             eexists; split; [apply LayoutFacts.generate_bylaws_content|];
             split; [apply (bool_decide_unpack _); vm_compute; exact I|];
             split; vm_compute; reflexivity|]).
    apply List.Forall_nil.
  - intros G r w. unfold formation_generators.
    repeat apply List.Forall_cons; try apply List.Forall_nil.
    all: cbv beta; do 2 eexists; split; [run_generator; reflexivity|].
    all: reflexivity.
Qed.

(* ===================================================================== *)
(** * C8: where the centred titles are anchored *)
(* ===================================================================== *)

(** C8.  The page is 612pt wide, so its midpoint is at 306pt; the one
    centred draw of each formation document and the two centred draws of
    the bylaws are all anchored at x = 300, six points left of the
    midpoint. *)
Theorem centred_titles_anchor_at_300 {G} (w : world G) :
  fst letter / 2 = 306 /\
  (forall r : CompanyFormation.t,
     Forall (fun g : CompanyFormation.t -> Py G BytesIO =>
       exists doc w',
         g r w = (Return doc, w') /\
         page doc = letter /\
         xpos <$> centred_draws doc = [300])
       formation_generators) /\
  (forall r : BylawsRequest.t,
     exists doc,
       generate_bylaws r w = (Return doc, w) /\
       page doc = letter /\
       xpos <$> centred_draws doc = [300; 300]).
Proof.
  split; [reflexivity|split].
  - intros r. unfold formation_generators.
    repeat apply List.Forall_cons; try apply List.Forall_nil.
    all: cbv beta; do 2 eexists; split; [run_generator; reflexivity|].
    all: split; reflexivity.
  - intros r. eexists. split; [apply LayoutFacts.generate_bylaws_content|].
    split; [reflexivity|]. unfold centred_draws. cbn [content].
    rewrite !List.filter_app, TextFacts.officer_draws_not_centred.
    reflexivity.
Qed.


(* ===================================================================== *)
(** * The models and the handlers *)
(* ===================================================================== *)

Module ModelFacts.
Import CompanyFormation.

Lemma init_formation_fields (name state type incorporator : string) :
  type = "corporation" \/ type = "LLC" ->
  init (formation_fields name state type incorporator) =
  Return {| company_name := name; state_of_formation := state;
            company_type := type; incorporator_name := incorporator |}.
Proof. intros [-> | ->]; vm_compute; reflexivity. Qed.

Lemma init_company_type (fields : gmap string pyval) (r : t) :
  init fields = Return r ->
  company_type r = "corporation" \/ company_type r = "LLC".
Proof.
  unfold init, construct, validated_str, validators, checked_bind.
  destruct (str_field "company_name" fields),
           (str_field "state_of_formation" fields),
           (literal_field _ "company_type" fields) eqn:E,
           (str_field "incorporator_name" fields);
    cbn [run_validators checked_ap]; try discriminate.
  intros [= <-]. cbn [company_type].
  unfold literal_field in E.
  destruct (fields !! "company_type") as [[| | |s| |]|]; try discriminate.
  destruct (bool_decide _) eqn:B; [|discriminate].
  injection E as <-. apply bool_decide_eq_true in B.
  apply elem_of_cons in B as [->|B]; [now left|].
  apply elem_of_cons in B as [->|B]; [now right|]. inversion B.
Qed.

End ModelFacts.

(* ===================================================================== *)
(** * C1 and C6: what [CompanyFormation] checks *)
(* ===================================================================== *)

(** C1.  [validate_state] does what is asked of it: on the 56 codes, in
    any mix of cases, it returns the code in upper case, and it raises on
    every other string.  But it is declared in [BylawsRequest], so
    [CompanyFormation] stores any string as [state_of_formation],
    unchanged: "XX" is accepted, and "de" is kept in lower case, for which
    [form_company] then answers that the jurisdiction is unsupported. *)
Theorem formation_state_not_validated :
  size states = 56%nat /\
  (forall v, PyStr.upper v ∈ states ->
             validate_state v = Return (PyStr.upper v)) /\
  (forall v, PyStr.upper v ∉ states ->
             validate_state v =
             Raise (ValueError "Invalid US state or territory")) /\
  validate_state "de" = Return "DE" /\
  validate_state "XX" = Raise (ValueError "Invalid US state or territory") /\
  (forall code : string,
     CompanyFormation.init
       (formation_fields "Test Company" code "corporation" "Test User") =
     Return {| CompanyFormation.company_name := "Test Company";
               CompanyFormation.state_of_formation := code;
               CompanyFormation.company_type := "corporation";
               CompanyFormation.incorporator_name := "Test User" |}) /\
  fst (form_company
         (JsonRequest (PDict
            (formation_fields "Test Company" "de" "corporation" "Test User")))
         sample_world) =
  Return unsupported_jurisdiction.
Proof.
  split; [apply ValidatorFacts.states_size|].
  split; [apply ValidatorFacts.validate_state_accepts|].
  split; [apply ValidatorFacts.validate_state_rejects|].
  split; [vm_compute; reflexivity|].
  split; [vm_compute; reflexivity|].
  split; [|vm_compute; reflexivity].
  intros code. apply ModelFacts.init_formation_fields. now left.
Qed.

(** C6.  [validate_company_name] does what is asked of it: it accepts the
    non-empty strings over [[a-zA-Z0-9\s,.'&]] and no other, so not the
    empty name and not "Acme <Corp>".  But it is declared in
    [BylawsRequest], so [CompanyFormation] stores any string as
    [company_name], and [form_company] renders it. *)
Theorem formation_company_name_not_validated :
  (forall v, validate_company_name v = Return v <->
             v <> EmptyString /\
             all_chars (cls_has company_name_class) v = true) /\
  validate_company_name EmptyString <> Return EmptyString /\
  validate_company_name "Acme <Corp>" <> Return "Acme <Corp>" /\
  (forall name : string,
     CompanyFormation.init
       (formation_fields name "DE" "corporation" "John Smith") =
     Return {| CompanyFormation.company_name := name;
               CompanyFormation.state_of_formation := "DE";
               CompanyFormation.company_type := "corporation";
               CompanyFormation.incorporator_name := "John Smith" |}) /\
  exists doc,
    fst (form_company
           (JsonRequest (PDict
              (formation_fields "Acme <Corp>" "DE" "corporation" "John Smith")))
           sample_world) =
    Return (file_response doc "application/pdf" true
              "Acme <Corp>_certificate.pdf").
Proof.
  split; [apply ValidatorFacts.validate_company_name_spec|].
  split; [vm_compute; discriminate|].
  split; [vm_compute; discriminate|].
  split.
  - intros name. apply ModelFacts.init_formation_fields. now left.
  - eexists. vm_compute. reflexivity.
Qed.

(* ===================================================================== *)
(** * C3: a body that fails validation, in [generate_company_bylaws] *)
(* ===================================================================== *)

(** Whatever the request, [generate_company_bylaws] either sends the
    bylaws or raises [NameError]: neither of its JSON error responses is
    ever returned. *)
Lemma bylaws_handler_outcomes {G} (req : request) (w : world G) :
  (exists doc name,
     generate_company_bylaws req w =
     (Return (file_response doc "application/pdf" false name), w)) \/
  generate_company_bylaws req w = (Raise (NameError "ValidationError"), w).
Proof.
  unfold generate_company_bylaws, try_except, bind, lift.
  destruct (get_json req) as [[| | | | |fields]|e]; try (right; reflexivity).
  unfold kwargs.
  destruct (BylawsRequest.init fields) as [r|e]; [|right; reflexivity].
  rewrite LayoutFacts.generate_bylaws_content. unfold send_file.
  destruct (has_line_break _); [right; reflexivity|left; eauto].
Qed.

(** C3.  When [BylawsRequest] rejects the body, the first [except] clause
    of [generate_company_bylaws] evaluates the name [ValidationError],
    which [app.py] does not import: the handler raises [NameError] and
    returns neither the 400 nor the 500 response. *)
Theorem bylaws_validation_error_escapes_handler {G}
    (fields : gmap string pyval) (model : string) (errs : list field_error)
    (w : world G) :
  BylawsRequest.init fields = Raise (ValidationError model errs) ->
  generate_company_bylaws (JsonRequest (PDict fields)) w =
  (Raise (NameError "ValidationError"), w).
Proof.
  intros H.
  unfold generate_company_bylaws, try_except, bind, lift, get_json, kwargs.
  rewrite H. reflexivity.
Qed.

Lemma bylaws_validation_error_escapes_handler_witness :
  BylawsRequest.init (bylaws_fields "13-31") =
    Raise (ValidationError "BylawsRequest"
             [{| loc := "fiscal_year_end";
                 msg := "Fiscal year end must be in MM-DD format" |}]) /\
  generate_company_bylaws (JsonRequest (PDict (bylaws_fields "13-31")))
    sample_world =
  (Raise (NameError "ValidationError"), sample_world).
Proof.
  split; [vm_compute; reflexivity|].
  apply (bylaws_validation_error_escapes_handler (bylaws_fields "13-31")
           "BylawsRequest"
           [{| loc := "fiscal_year_end";
               msg := "Fiscal year end must be in MM-DD format" |}]).
  vm_compute. reflexivity.
Defined.

(* ===================================================================== *)
(** * C7 and C10: the branch of [form_company] *)
(* ===================================================================== *)

Module HandlerFacts.
Import CompanyFormation.

(** [form_company] on a body that validates: the branch decides the
    response. *)
Lemma form_company_validated {G} (req : request)
    (fields : gmap string pyval) (r : t) (w : world G) :
  posted_data req = Return (PDict fields) ->
  init fields = Return r ->
  form_company req w =
  match form_company_dispatch r w with
  | (Return (inl resp), w') => (Return resp, w')
  | (Return (inr doc), w') => (Return (certificate_or_refusal r doc), w')
  | (Raise e, w') => (Return (json_error (StrOf e) 400), w')
  end.
Proof.
  intros Hreq H.
  unfold form_company, try_except, bind, lift. rewrite Hreq.
  unfold kwargs. rewrite H.
  destruct (form_company_dispatch r w) as [[[resp|doc]|e] w'];
    try reflexivity.
  unfold certificate_or_refusal.
  destruct (send_file doc _ _ _); reflexivity.
Qed.

Lemma has_line_break_app (s t : string) :
  has_line_break (s +:+ t) = has_line_break s || has_line_break t.
Proof.
  induction s as [|c s IH]; [reflexivity|].
  rewrite PyStrFacts.app_cons. simpl. now rewrite IH, orb_assoc.
Qed.

(** [send_file] refuses the name of the certificate exactly when the
    company name holds a line break. *)
Lemma refusal_iff (r : t) (doc : BytesIO) :
  certificate_or_refusal r doc =
  if has_line_break (company_name r) then refused_name
  else certificate r doc.
Proof.
  unfold certificate_or_refusal, send_file, certificate, refused_name.
  rewrite has_line_break_app.
  change (has_line_break "_certificate.pdf") with false.
  rewrite orb_false_r. now destruct (has_line_break (company_name r)).
Qed.

Lemma eqb_ne (s t : string) : s <> t -> String.eqb s t = false.
Proof. intros H. now apply String.eqb_neq. Qed.

Lemma dispatch_never_unsupported_type {G} (r : t) (w : world G) :
  company_type r = "corporation" \/ company_type r = "LLC" ->
  fst (form_company_dispatch r w) <> Return (inl unsupported_type).
Proof.
  intros Ht. unfold form_company_dispatch.
  destruct (String.eqb (state_of_formation r) "DE");
    [|destruct (String.eqb (state_of_formation r) "CA")].
  1-2: destruct Ht as [-> | ->];
    cbn [String.eqb Ascii.eqb Bool.eqb]; run_generator; discriminate.
  discriminate.
Qed.

(** Whatever the request, [form_company] does not answer "Unsupported
    company type". *)
Lemma form_company_never_unsupported_type {G} (req : request)
    (w : world G) :
  fst (form_company req w) <> Return unsupported_type.
Proof.
  destruct (posted_data req) as [[| | | | |fields]|e] eqn:Hreq.
  6: destruct (init fields) as [r|e] eqn:Hinit.
  6: { rewrite (form_company_validated _ _ _ _ Hreq Hinit).
       pose proof (dispatch_never_unsupported_type r w
                     (ModelFacts.init_company_type _ _ Hinit)) as Hd.
       destruct (form_company_dispatch r w) as [[[resp|doc]|e] w'];
         cbn [fst] in *; [congruence| |discriminate].
       rewrite refusal_iff.
       destruct (has_line_break (company_name r)); discriminate. }
  all: unfold form_company, try_except, bind, lift; rewrite Hreq;
    unfold kwargs; try rewrite Hinit; cbn; discriminate.
Qed.

End HandlerFacts.

(** C7.  The branch of [form_company] compares [state_of_formation] as
    the record holds it, and [CompanyFormation] holds it as it came (C1).
    So for the body of the test suite with the code "de", which
    [validate_state] would normalise to "DE", the handler answers that the
    jurisdiction is unsupported and runs no generator.  For a record that
    holds neither "DE" nor "CA" (in particular one whose code is neither
    of them once upper-cased) the handler gives that 400 answer and runs
    no generator; for a record that holds "DE" or "CA" and "corporation" or
    "LLC" the branch runs the generator of that pair and no other, and
    the handler sends its document, unless [send_file] refuses the name
    for a line break in it, which the handler answers with 400. *)
Theorem form_company_branches_on_stored_state :
  CompanyFormation.init lower_case_delaware =
    Return {| CompanyFormation.company_name := "Test Company";
              CompanyFormation.state_of_formation := "de";
              CompanyFormation.company_type := "corporation";
              CompanyFormation.incorporator_name := "Test User" |} /\
  validate_state "de" = Return "DE" /\
  form_company (JsonRequest (PDict lower_case_delaware)) sample_world =
    (Return unsupported_jurisdiction, sample_world) /\
  (forall G (req : request) (fields : gmap string pyval)
          (r : CompanyFormation.t) (w : world G),
     posted_data req = Return (PDict fields) ->
     CompanyFormation.init fields = Return r ->
     (CompanyFormation.state_of_formation r <> "DE" ->
      CompanyFormation.state_of_formation r <> "CA" ->
      form_company_dispatch r w = (Return (inl unsupported_jurisdiction), w) /\
      form_company req w = (Return unsupported_jurisdiction, w)) /\
     (PyStr.upper (CompanyFormation.state_of_formation r) <> "DE" ->
      PyStr.upper (CompanyFormation.state_of_formation r) <> "CA" ->
      form_company req w = (Return unsupported_jurisdiction, w)) /\
     (forall (state type : string) (g : CompanyFormation.t -> Py G BytesIO),
        (state, type, g) ∈ served ->
        CompanyFormation.state_of_formation r = state ->
        CompanyFormation.company_type r = type ->
        exists doc w',
          g r w = (Return doc, w') /\
          form_company_dispatch r w = (Return (inr doc), w') /\
          form_company req w = (Return (certificate_or_refusal r doc), w') /\
          (has_line_break (CompanyFormation.company_name r) = false ->
           form_company req w = (Return (certificate r doc), w')) /\
          (has_line_break (CompanyFormation.company_name r) = true ->
           form_company req w = (Return refused_name, w')))).
Proof.
  split; [vm_compute; reflexivity|].
  split; [vm_compute; reflexivity|].
  split; [vm_compute; reflexivity|].
  intros G req fields r w Hreq Hinit.
  rewrite (HandlerFacts.form_company_validated _ _ _ _ Hreq Hinit).
  assert (Hout : CompanyFormation.state_of_formation r <> "DE" ->
                 CompanyFormation.state_of_formation r <> "CA" ->
                 form_company_dispatch r w =
                 (Return (inl unsupported_jurisdiction), w)).
  { intros HDE HCA. unfold form_company_dispatch.
    rewrite (HandlerFacts.eqb_ne _ _ HDE), (HandlerFacts.eqb_ne _ _ HCA).
    reflexivity. }
  split; [|split].
  - intros HDE HCA. rewrite (Hout HDE HCA). split; reflexivity.
  - intros HDE HCA. rewrite Hout; [reflexivity| |].
    + intros E. apply HDE. now rewrite E.
    + intros E. apply HCA. now rewrite E.
  - intros state type g Hin Hs Ht. unfold served in Hin.
    unfold form_company_dispatch. rewrite Hs, Ht.
    repeat (apply elem_of_cons in Hin as [[= -> -> ->]|Hin];
            [do 2 eexists; split; [run_generator; reflexivity|];
             cbn [String.eqb Ascii.eqb Bool.eqb];
             split; [run_generator; reflexivity|];
             split; [run_generator; reflexivity|];
             run_generator;
             rewrite (HandlerFacts.refusal_iff r);
             split; intros E; rewrite E; reflexivity|]).
    inversion Hin.
Qed.

(** C10.  A record that [CompanyFormation] has validated has
    [company_type] "corporation" or "LLC" (in exactly that spelling), so
    the branch of [form_company] takes neither of its two "Unsupported
    company type" exits, and the handler never gives that response. *)
Theorem company_type_branches_unreachable {G} (fields : gmap string pyval)
    (r : CompanyFormation.t) :
  CompanyFormation.init fields = Return r ->
  (CompanyFormation.company_type r = "corporation" \/
   CompanyFormation.company_type r = "LLC") /\
  (forall w : world G,
     fst (form_company_dispatch r w) <> Return (inl unsupported_type)) /\
  (forall (req : request) (w : world G),
     fst (form_company req w) <> Return unsupported_type).
Proof.
  intros Hinit.
  pose proof (ModelFacts.init_company_type _ _ Hinit) as Ht.
  split; [exact Ht|split].
  - intros w. now apply HandlerFacts.dispatch_never_unsupported_type.
  - apply HandlerFacts.form_company_never_unsupported_type.
Qed.

Lemma company_type_branches_unreachable_witness :
  (CompanyFormation.company_type acme = "corporation" \/
   CompanyFormation.company_type acme = "LLC") /\
  (forall w : world unit,
     fst (form_company_dispatch acme w) <> Return (inl unsupported_type)) /\
  (forall (req : request) (w : world unit),
     fst (form_company req w) <> Return unsupported_type).
Proof.
  apply (company_type_branches_unreachable
           (formation_fields "Acme Corp, Inc." "DE" "corporation"
              "John Smith")).
  vm_compute. reflexivity.
Defined.


(* ===================================================================== *)
(** * What the handlers answer *)
(* ===================================================================== *)

Module AnswerFacts.
Import CompanyFormation.

(** The branch never raises: it leaves with a 400 response or with a
    document. *)
Lemma dispatch_returns {G} (r : t) (w : world G) :
  exists out w',
    form_company_dispatch r w = (Return out, w') /\
    match out with
    | inl resp => exists m, resp = json_error m 400
    | inr _ => True
    end.
Proof.
  unfold form_company_dispatch.
  destruct (String.eqb (state_of_formation r) "DE");
    [|destruct (String.eqb (state_of_formation r) "CA")];
    [destruct (String.eqb (company_type r) "corporation");
       [|destruct (String.eqb (company_type r) "LLC")]..|].
  all: run_generator; do 2 eexists; split; [reflexivity|]; cbv beta iota;
    eauto.
Qed.

Lemma form_company_invalid {G} (req : request)
    (fields : gmap string pyval) (e : exn) (w : world G) :
  posted_data req = Return (PDict fields) ->
  init fields = Raise e ->
  form_company req w = (Return (json_error (StrOf e) 400), w).
Proof.
  intros Hreq H.
  unfold form_company, try_except, bind, lift. rewrite Hreq.
  unfold kwargs. rewrite H. reflexivity.
Qed.






End AnswerFacts.

(** X3.  [form_company] answers every request and lets no exception out:
    its answer is either a JSON error with status 400 (never 500) or a PDF
    sent as an attachment. *)
Theorem form_company_always_answers {G} (req : request) (w : world G) :
  exists resp w',
    form_company req w = (Return resp, w') /\
    match resp with
    | json_error _ status => status = 400
    | file_response _ mimetype as_attachment _ =>
        mimetype = "application/pdf" /\ as_attachment = true
    end.
Proof.
  destruct (posted_data req) as [[| | | | |fields]|e] eqn:Hreq.
  6: destruct (CompanyFormation.init fields) as [r|e] eqn:Hinit.
  6: { rewrite (HandlerFacts.form_company_validated _ _ _ _ Hreq Hinit).
       destruct (AnswerFacts.dispatch_returns r w) as (out & w' & -> & Hout).
       destruct out as [resp|doc].
       - destruct Hout as [m ->]. do 2 eexists. split; reflexivity.
       - rewrite HandlerFacts.refusal_iff.
         destruct (has_line_break (CompanyFormation.company_name r));
           do 2 eexists; (split; [reflexivity|]);
           [reflexivity|split; reflexivity]. }
  6: { rewrite (AnswerFacts.form_company_invalid _ _ _ _ Hreq Hinit).
       do 2 eexists. split; reflexivity. }
  all: unfold form_company, try_except, bind, lift; rewrite Hreq;
    do 2 eexists; split; reflexivity.
Qed.



(* ===================================================================== *)
(** * Where the documents put their lines *)
(* ===================================================================== *)

(** X6.  In each of the four formation documents, on the Letter page, the
    lines are drawn from top to bottom, no two at the same height, every
    anchor between x = 50 and x = 300 and between y = 80 and y = 750; the
    generator reads the clock exactly twice. *)
Theorem formation_documents_layout {G} (r : CompanyFormation.t)
    (w : world G) :
  Forall (fun g : CompanyFormation.t -> Py G BytesIO =>
    exists doc w',
      g r w = (Return doc, w') /\
      page doc = letter /\
      StronglySorted (fun a b => b < a) (ypos <$> content doc) /\
      Forall (fun y => 80 <= y <= 750) (ypos <$> content doc) /\
      Forall (fun x => 50 <= x <= 300) (xpos <$> content doc) /\
      reads w' = S (S (reads w)))
    formation_generators.
Proof.
  unfold formation_generators.
  repeat apply List.Forall_cons; try apply List.Forall_nil.
  all: cbv beta; do 2 eexists; split; [run_generator; reflexivity|].
  all: cbn [content page fmap list_fmap ypos xpos reads].
  all: split; [reflexivity|].
  all: split; [repeat (constructor; [|repeat constructor; lia]); constructor|].
  all: split; [repeat constructor; lia|].
  all: split; [repeat constructor; lia|reflexivity].
Qed.

(** X7.  The bylaws have no page break: their anchors all lie on the page
    (y from 0 to 792) exactly when there are at most 15 officer titles;
    with more, the last lines are anchored below the bottom edge. *)
Theorem bylaws_fit_page_iff {G} (r : BylawsRequest.t) (w : world G) :
  exists doc,
    generate_bylaws r w = (Return doc, w) /\
    (Forall (fun d => 0 <= ypos d <= 792) (content doc) <->
     (length (BylawsRequest.officer_titles r) <= 15)%nat).
Proof.
  eexists. split; [apply LayoutFacts.generate_bylaws_content|].
  cbn [content]. set (titles := BylawsRequest.officer_titles r).
  rewrite !Forall_app. split.
  - intros (_ & _ & Htail).
    apply Forall_cons in Htail as [_ Htail].
    apply Forall_cons in Htail as [_ Htail].
    apply Forall_cons in Htail as [Hlast _]. simpl in Hlast. lia.
  - intros Hn. split; [|split].
    + repeat (apply List.Forall_cons; [simpl; lia|]). apply List.Forall_nil.
    + apply Forall_forall. intros d Hd.
      apply LayoutFacts.officer_draws_ypos in Hd. lia.
    + repeat (apply List.Forall_cons; [simpl; lia|]). apply List.Forall_nil.
Qed.

(** X8.  A formation document takes the day of its date line from one
    reading of the clock and the month and the year from the next: two
    runs whose first readings agree on the day and whose second readings
    agree on the month and the year give the same document, whatever else
    the readings say (so a run across midnight can print the day of one
    date with the month of the next). *)
Theorem formation_date_from_two_readings {G} (r : CompanyFormation.t)
    (w1 w2 : world G) :
  day (clock w1 (reads w1)) = day (clock w2 (reads w2)) ->
  month (clock w1 (S (reads w1))) = month (clock w2 (S (reads w2))) ->
  year (clock w1 (S (reads w1))) = year (clock w2 (S (reads w2))) ->
  Forall (fun g : CompanyFormation.t -> Py G BytesIO =>
            fst (g r w1) = fst (g r w2))
         formation_generators.
Proof.
  destruct w1 as [c1 n1 s1], w2 as [c2 n2 s2]. cbn [clock reads].
  intros Hd Hm Hy. unfold formation_generators.
  repeat apply List.Forall_cons; try apply List.Forall_nil.
  all: cbv beta; run_generator; cbn [fst Datetime.strftime].
  all: rewrite Hd, Hm, Hy; reflexivity.
Qed.

Lemma formation_date_from_two_readings_witness :
  Forall (fun g : CompanyFormation.t -> Py unit BytesIO =>
            fst (g acme midnight_world) = fst (g acme other_world))
         formation_generators.
Proof.
  apply (formation_date_from_two_readings acme midnight_world other_world);
    reflexivity.
Defined.

(* ===================================================================== *)
(** * The form page, the schema examples and the state codes *)
(* ===================================================================== *)

Module TableFacts.

Lemma posted_form_data (name state type incorporator : string) :
  posted_data (posted_form name state type incorporator) =
  Return (PDict (formation_fields name state type incorporator)).
Proof. reflexivity. Qed.

(** A test on every code of the page. *)
Lemma on_every_code (test : string -> bool) (st : string) :
  forallb test company_form_states = true ->
  st ∈ company_form_states -> test st = true.
Proof.
  intros H Hin. apply list_elem_of_In in Hin.
  exact (proj1 (forallb_forall _ _) H st Hin).
Qed.

Lemma in_states (st : string) : st ∈ company_form_states <-> st ∈ states.
Proof. unfold states. now rewrite elem_of_list_to_set. Qed.

End TableFacts.

(** X9.  The page offers 56 distinct codes, and they are the codes that
    [validate_state] accepts; each is offered as an option whose value is
    the code itself, already in the form [validate_state] returns.  Of
    these, the handler that receives the form serves only DE and CA: for
    them it makes the document and sends it (or answers 400 when the name
    holds a line break, which [send_file] refuses), and for the other 54
    it answers that the jurisdiction is unsupported. *)
Theorem form_offers_the_valid_states {G} (w : world G) :
  NoDup company_form_states /\
  length company_form_states = 56%nat /\
  (forall st, st ∈ company_form_states <-> st ∈ states) /\
  (forall st, st ∈ company_form_states ->
     validate_state st = Return st /\
     substring (state_option st) state_options) /\
  (forall st name type incorporator,
     st ∈ company_form_states ->
     type ∈ ["corporation"; "LLC"] ->
     (st ∈ ["DE"; "CA"] ->
      exists r doc w',
        CompanyFormation.init (formation_fields name st type incorporator)
          = Return r /\
        form_company_dispatch r w = (Return (inr doc), w') /\
        form_company (posted_form name st type incorporator) w =
        (Return (if has_line_break name then refused_name
                 else certificate r doc), w')) /\
     (st ∉ ["DE"; "CA"] ->
      form_company (posted_form name st type incorporator) w =
      (Return unsupported_jurisdiction, w))).
Proof.
  split; [apply (bool_decide_unpack _); vm_compute; exact I|].
  split; [reflexivity|].
  split; [apply TableFacts.in_states|].
  split.
  - intros st Hin.
    pose proof (TableFacts.on_every_code
      (fun st => match validate_state st with
                 | Return u => String.eqb u st
                 | Raise _ => false
                 end && PyStr.contains state_options (state_option st))
      st ltac:(vm_compute; reflexivity) Hin) as H.
    apply andb_true_iff in H as [H1 H2]. split.
    + destruct (validate_state st) as [u|]; [|discriminate].
      apply String.eqb_eq in H1. now subst.
    + now apply PyStrFacts.contains_spec.
  - intros st name type incorporator _ Htype.
    assert (Hinit := ModelFacts.init_formation_fields name st type incorporator).
    assert (Ht : type = "corporation" \/ type = "LLC").
    { apply elem_of_cons in Htype as [->|Htype]; [now left|].
      apply elem_of_cons in Htype as [->|Htype]; [now right|].
      inversion Htype. }
    specialize (Hinit Ht).
    rewrite (HandlerFacts.form_company_validated _ _ _ _
               (TableFacts.posted_form_data _ _ _ _) Hinit).
    unfold form_company_dispatch. cbn [CompanyFormation.state_of_formation
      CompanyFormation.company_type].
    split.
    + intros Hst.
      apply elem_of_cons in Hst as [->|Hst];
        [|apply elem_of_cons in Hst as [->|Hst]; [|inversion Hst]].
      all: destruct Ht as [-> | ->]; cbn [String.eqb Ascii.eqb Bool.eqb];
        run_generator; do 3 eexists; (split; [reflexivity|]);
        (split; [reflexivity|]); rewrite HandlerFacts.refusal_iff;
        reflexivity.
    + intros Hst.
      rewrite (HandlerFacts.eqb_ne st "DE"), (HandlerFacts.eqb_ne st "CA");
        [reflexivity|..]; intros ->; apply Hst.
      * apply list_elem_of_further, list_elem_of_here.
      * apply list_elem_of_here.
Qed.

(** X10.  Each of the four examples of [form_company_schema] validates,
    and [form_company] answers it with the document of a generator of its
    own, in the order Delaware corporation, Delaware LLC, California
    corporation, California LLC: together the examples exercise all four
    generators.  Their names and codes are also ones that
    [validate_company_name] and [validate_state] let through unchanged. *)
Theorem schema_examples_are_served {G} (w : world G) :
  Forall2 (fun ex (g : CompanyFormation.t -> Py G BytesIO) =>
    exists r doc w',
      CompanyFormation.init ex = Return r /\
      g r w = (Return doc, w') /\
      form_company (JsonRequest (PDict ex)) w =
        (Return (certificate r doc), w') /\
      validate_company_name (CompanyFormation.company_name r) =
        Return (CompanyFormation.company_name r) /\
      validate_state (CompanyFormation.state_of_formation r) =
        Return (CompanyFormation.state_of_formation r))
    form_company_schema formation_generators.
Proof.
  unfold form_company_schema, formation_generators.
  repeat apply Forall2_cons_2; try apply Forall2_nil_2.
  all: do 3 eexists.
  all: split; [vm_compute; reflexivity|].
  all: split; [run_generator; reflexivity|].
  all: split; [|split; vm_compute; reflexivity].
  all: erewrite HandlerFacts.form_company_validated;
    [|reflexivity|vm_compute; reflexivity].
  all: unfold form_company_dispatch;
    cbn [CompanyFormation.state_of_formation CompanyFormation.company_type
         String.eqb Ascii.eqb Bool.eqb];
    run_generator; rewrite HandlerFacts.refusal_iff; reflexivity.
Qed.

(** X11.  What [validate_state] returns is always one of the 56 codes:
    two characters, already in upper case, and accepted again unchanged
    (normalising twice is normalising once). *)
Theorem validate_state_normalises (v u : string) :
  validate_state v = Return u ->
  u = PyStr.upper v /\
  u ∈ states /\
  String.length u = 2%nat /\
  PyStr.upper u = u /\
  validate_state u = Return u.
Proof.
  unfold validate_state at 1.
  destruct (bool_decide (PyStr.upper v ∈ states)) eqn:B; [|discriminate].
  intros [= <-]. apply bool_decide_eq_true in B.
  split; [reflexivity|]. split; [exact B|].
  pose proof (TableFacts.on_every_code
    (fun st => Nat.eqb (String.length st) 2 && String.eqb (PyStr.upper st) st
               && match validate_state st with
                  | Return s => String.eqb s st
                  | Raise _ => false
                  end)
    (PyStr.upper v) ltac:(vm_compute; reflexivity)
    (proj2 (TableFacts.in_states _) B)) as H.
  apply andb_true_iff in H as [H H3].
  apply andb_true_iff in H as [H1 H2].
  apply Nat.eqb_eq in H1. apply String.eqb_eq in H2.
  split; [exact H1|]. split; [exact H2|].
  destruct (validate_state (PyStr.upper v)) as [s|]; [|discriminate].
  apply String.eqb_eq in H3. now subst.
Qed.

Lemma validate_state_normalises_witness :
  "DE" = PyStr.upper "de" /\
  "DE" ∈ states /\
  String.length "DE" = 2%nat /\
  PyStr.upper "DE" = "DE" /\
  validate_state "DE" = Return "DE".
Proof.
  apply (validate_state_normalises "de" "DE"). vm_compute. reflexivity.
Defined.

(* ===================================================================== *)
(** * The fixed text of the documents *)
(* ===================================================================== *)

Module HeadingFacts.
Import PyStrFacts.

(** A string that starts one of the drawn lines occurs in the text. *)
Lemma starts_a_line (doc : BytesIO) (h : string) :
  Exists (fun t => PyStr.startswith t h = true) (text <$> content doc) ->
  substring h (extract_text doc).
Proof.
  intros H. apply Exists_exists in H as (t & Hin & Hs).
  apply TextFacts.text_in_document with (t := t); [exact Hin|].
  apply startswith_spec in Hs as [rest ->].
  apply substring_app_r, substring_refl.
Qed.

Lemma within_line (p a y : string) : substring (p +:+ a) (p +:+ a +:+ y).
Proof.
  exists EmptyString, y. now rewrite app_assoc.
Qed.

End HeadingFacts.

Ltac has_line :=
  repeat (first [apply Exists_cons_hd; vm_compute; reflexivity
                |apply Exists_cons_tl]).

Ltac headings :=
  repeat (apply List.Forall_cons;
          [apply HeadingFacts.starts_a_line;
           cbn [content fmap list_fmap text]; has_line|]);
  apply List.Forall_nil.

(** X12.  Whatever the record, each document carries its fixed text; in
    particular every heading that the tests of the formation documents and
    of the bylaws look for is in the extracted text, and the bylaws carry
    the meeting month, the quorum and the board size inside their
    sentences. *)
Theorem documents_carry_their_headings {G} (w : world G) :
  (forall r : CompanyFormation.t,
     exists doc w',
       generate_delaware_articles r w = (Return doc, w') /\
       Forall (fun h => substring h (extract_text doc))
         ["CERTIFICATE OF INCORPORATION";
          "FIRST: The name of this corporation is:";
          "SECOND: Its registered office in the State of Delaware";
          "THIRD: The purpose of the corporation is to engage";
          "FOURTH: The total number of shares of stock";
          "IN WITNESS WHEREOF, the undersigned";
          "Incorporator:"]) /\
  (forall r : CompanyFormation.t,
     exists doc w',
       generate_delaware_llc_certificate r w = (Return doc, w') /\
       Forall (fun h => substring h (extract_text doc))
         ["CERTIFICATE OF FORMATION";
          "FIRST: The name of the limited liability company is:";
          "SECOND: The address of its registered office";
          "THIRD: The name and address of its registered agent";
          "FOURTH: The limited liability company shall be managed";
          "IN WITNESS WHEREOF, the undersigned";
          "Authorized Person:"]) /\
  (forall r : CompanyFormation.t,
     exists doc w',
       generate_california_articles r w = (Return doc, w') /\
       Forall (fun h => substring h (extract_text doc))
         ["ARTICLES OF INCORPORATION";
          "ARTICLE I: The name of this corporation is:";
          "ARTICLE II: The purpose of the corporation";
          "ARTICLE III: The name and address in California";
          "IN WITNESS WHEREOF, the undersigned";
          "Incorporator:"]) /\
  (forall r : CompanyFormation.t,
     exists doc w',
       generate_california_llc_certificate r w = (Return doc, w') /\
       Forall (fun h => substring h (extract_text doc))
         ["ARTICLES OF ORGANIZATION";
          "ARTICLE I: The name of the limited liability company is:";
          "ARTICLE II: The purpose of the limited liability company";
          "ARTICLE III: The name and address in California";
          "IN WITNESS WHEREOF, the undersigned";
          "Authorized Person:"]) /\
  (forall r : BylawsRequest.t,
     exists doc,
       generate_bylaws r w = (Return doc, w) /\
       Forall (fun h => substring h (extract_text doc))
         ["CORPORATE BYLAWS OF";
          "ARTICLE I - OFFICES";
          "ARTICLE II - SHAREHOLDERS MEETINGS";
          "ARTICLE III - BOARD OF DIRECTORS";
          "ARTICLE IV - OFFICERS";
          "ARTICLE V - FISCAL YEAR";
          BylawsRequest.annual_meeting_month r +:+ " of each year";
          pretty (BylawsRequest.quorum_percentage r)
            +:+ "% of the outstanding shares";
          "Board of Directors shall consist of "
            +:+ pretty (BylawsRequest.board_size r)]).
Proof.
  split; [|split; [|split; [|split]]].
  1-4: intros r; do 2 eexists; split; [run_generator; reflexivity|headings].
  intros r. eexists. split; [apply LayoutFacts.generate_bylaws_content|].
  cbn [content].
  repeat apply List.Forall_cons; try apply List.Forall_nil.
  1-5: apply HeadingFacts.starts_a_line; cbn [content]; rewrite fmap_app;
    apply Exists_app; left; cbn [fmap list_fmap text]; has_line.
  - apply HeadingFacts.starts_a_line. cbn [content]. rewrite !fmap_app.
    apply Exists_app. right. apply Exists_app. right.
    cbn [fmap list_fmap text]. has_line.
  - appears_in_head
      (BylawsRequest.annual_meeting_month r +:+ " of each year.").
    apply (HeadingFacts.within_line
             (BylawsRequest.annual_meeting_month r) " of each year" ".").
  - appears_in_head
      ("2. Quorum. " +:+ pretty (BylawsRequest.quorum_percentage r)
         +:+ "% of the outstanding shares shall constitute").
    apply PyStrFacts.substring_app_l.
    apply (HeadingFacts.within_line
             (pretty (BylawsRequest.quorum_percentage r))
             "% of the outstanding shares" " shall constitute").
  - appears_in_head
      ("1. Number. The Board of Directors shall consist of "
         +:+ pretty (BylawsRequest.board_size r)).
    apply (PyStrFacts.substring_app_l _ _ "1. Number. The "),
      PyStrFacts.substring_refl.
Qed.

(* ===================================================================== *)
(** * The title of the bylaws *)
(* ===================================================================== *)

Module UpperFacts.

Lemma upper_char_in_class (c : ascii) :
  cls_has company_name_class c = true ->
  cls_has company_name_class (PyStr.upper_char c) = true.
Proof.
  assert (H : forallb (fun c => implb (cls_has company_name_class c)
                (cls_has company_name_class (PyStr.upper_char c)))
                alphabet = true) by (vm_compute; reflexivity).
  pose proof (proj1 (forallb_forall _ _) H c (WordsFacts.in_alphabet c))
    as Hc.
  cbv beta in Hc. intros E. now rewrite E in Hc.
Qed.

Lemma upper_char_idem (c : ascii) :
  PyStr.upper_char (PyStr.upper_char c) = PyStr.upper_char c.
Proof.
  assert (H : forallb (fun c => Ascii.eqb
                (PyStr.upper_char (PyStr.upper_char c))
                (PyStr.upper_char c)) alphabet = true)
    by (vm_compute; reflexivity).
  pose proof (proj1 (forallb_forall _ _) H c (WordsFacts.in_alphabet c))
    as Hc.
  now apply Ascii.eqb_eq in Hc.
Qed.

End UpperFacts.

(** X14.  The title line of the bylaws is again a name that
    [validate_company_name] accepts: converting an accepted name to upper
    case keeps it within the character set and keeps its length, and
    converting twice changes nothing more. *)
Theorem bylaws_title_is_valid_name (s : string) :
  validate_company_name s = Return s ->
  validate_company_name (PyStr.upper s) = Return (PyStr.upper s) /\
  String.length (PyStr.upper s) = String.length s /\
  PyStr.upper (PyStr.upper s) = PyStr.upper s.
Proof.
  rewrite !ValidatorFacts.validate_company_name_spec. intros [Hne Hall].
  split; [split|split].
  - destruct s; [contradiction|discriminate].
  - clear Hne. induction s as [|c s IH]; [reflexivity|].
    cbn [all_chars PyStr.upper] in *.
    apply andb_true_iff in Hall as [Hc Hs].
    now rewrite (UpperFacts.upper_char_in_class c Hc), IH.
  - clear. induction s as [|c s IH]; simpl; auto.
  - clear. induction s as [|c s IH]; [reflexivity|].
    simpl. now rewrite UpperFacts.upper_char_idem, IH.
Qed.

Lemma bylaws_title_is_valid_name_witness :
  validate_company_name (PyStr.upper "Test Corporation") =
    Return (PyStr.upper "Test Corporation") /\
  String.length (PyStr.upper "Test Corporation") =
    String.length "Test Corporation" /\
  PyStr.upper (PyStr.upper "Test Corporation") = PyStr.upper "Test Corporation".
Proof.
  apply (bylaws_title_is_valid_name "Test Corporation").
  vm_compute. reflexivity.
Defined.

